(** * connectlib: round orchestration and Scaffold aggregation

    A shallow embedding of
    - [connectlib/index_generator/base.py]  (constructor of the index generator),
    - [connectlib/nodes/train_data_node.py] (deferred train operations),
    - [connectlib/strategies/scaffold.py]   (the Scaffold strategy),
    with the properties of the specification stated over it.

    Conventions.  A Python call that may raise returns a [Result]; an object
    that is mutated in place lives in an explicit store ([World]) and is
    designated by its identity; Python [int] is [Z]; numpy [float64] arrays
    are flattened sequences of exact rationals ([Qc]), so rounding is not part
    of the model. *)

From Stdlib Require Import ZArith QArith Qcanon Lia.
From stdpp Require Import base option list gmap strings numbers pretty.

Open Scope Z_scope.

(** ** Exceptions *)

Inductive PyError : Set :=
  | ValueError
  | AssertionError
  | NotImplementedError
  | IndexError
  | TypeError.

Inductive Result (A : Type) : Type :=
  | Ok (a : A)
  | Raise (e : PyError).
Arguments Ok {A} a.
Arguments Raise {A} e.

Definition rbind {A B} (r : Result A) (k : A -> Result B) : Result B :=
  match r with
  | Ok a => k a
  | Raise e => Raise e
  end.

Notation "x <-! r ;; k" := (rbind r (fun x => k))
  (at level 100, r at next level, right associativity).

Definition assert (b : bool) : Result unit :=
  if b then Ok tt else Raise AssertionError.

#[global] Instance PyError_eq_dec : EqDecision PyError.
Proof. solve_decision. Defined.

(** ** index_generator/base.py *)

Module BaseIndexGenerator.
Section WithNumpy.

(** [np.random.default_rng] belongs to numpy: the type of its generators and
    the function itself (which validates its seed) are parameters. *)
Variable Generator : Type.
Variable default_rng : Z -> Result Generator.

Record t : Type := mk {
  _n_samples : Z;
  _batch_size : Z;
  _rng : Generator;
  _shuffle : bool;
  _drop_last : bool;
  _num_updates : Z;
  _counter : Z;
  _n_epoch_generated : Z
}.

(** [BaseIndexGenerator.__init__]. *)
Definition __init__ (n_samples : Z) (batch_size : option Z) (num_updates : Z)
    (shuffle drop_last : bool) (seed : Z) : Result t :=
  if n_samples <? 0 then Raise ValueError
  else
    bs <-! (match batch_size with
            | None => Ok n_samples
            | Some b =>
                if b <? 0 then Raise ValueError
                else if b >? n_samples then Ok n_samples
                else Ok b
            end) ;;
    rng <-! default_rng seed ;;
    Ok {| _n_samples := n_samples;
          _batch_size := bs;
          _rng := rng;
          _shuffle := shuffle;
          _drop_last := drop_last;
          _num_updates := num_updates;
          _counter := 0;
          _n_epoch_generated := 0 |}.

Definition counter (self : t) : Z := _counter self.
Definition n_epoch_generated (self : t) : Z := _n_epoch_generated self.

Definition reset_counter (self : t) : t :=
  {| _n_samples := _n_samples self;
     _batch_size := _batch_size self;
     _rng := _rng self;
     _shuffle := _shuffle self;
     _drop_last := _drop_last self;
     _num_updates := _num_updates self;
     _counter := 0;
     _n_epoch_generated := _n_epoch_generated self |}.

End WithNumpy.

Arguments mk {Generator}.
Arguments _n_samples {Generator}.
Arguments _batch_size {Generator}.
Arguments _rng {Generator}.
Arguments _shuffle {Generator}.
Arguments _drop_last {Generator}.
Arguments _num_updates {Generator}.
Arguments _counter {Generator}.
Arguments _n_epoch_generated {Generator}.
Arguments __init__ {Generator}.

(** A seeding function that accepts every seed and keeps it as the state of
  the generator; used to run the constructor on concrete arguments. *)
Definition seed_as_state (seed : Z) : Result Z := Ok seed.

End BaseIndexGenerator.

(** ** State references and operation records *)

Definition Key : Type := string.

(** [LocalStateRef(key)] and [SharedStateRef(key)]: opaque handles on the
    outputs of an operation that has not run yet. *)
Inductive LocalStateRef : Type := mkLocalStateRef (key : Key).
Inductive SharedStateRef : Type := mkSharedStateRef (key : Key).

Definition local_key (r : LocalStateRef) : Key := let 'mkLocalStateRef k := r in k.
Definition shared_key (r : SharedStateRef) : Key := let 'mkSharedStateRef k := r in k.

#[global] Instance LocalStateRef_eq_dec : EqDecision LocalStateRef.
Proof. solve_decision. Defined.
#[global] Instance SharedStateRef_eq_dec : EqDecision SharedStateRef.
Proof. solve_decision. Defined.

(** The dictionary built by [TrainDataNode.compute], one field per key. *)
Record TrainTuple : Type := mkTrainTuple {
  algo_key : Key;
  data_manager_key : Key;
  train_data_sample_keys : list Key;
  in_head_model_id : option Key;
  in_trunk_model_id : option Key;
  tag : string;
  composite_traintuple_id : Key
}.

(** Modelled from the spec: the record written by the aggregation node,
    whose class is not part of the sources at hand (sections 3 and 4.3: the
    operation id, the sequence of input references, the algorithm identity
    and the round index). *)
Record AggregateTuple : Type := mkAggregateTuple {
  aggregatetuple_id : Key;
  worker : string;
  in_models_ids : list Key;
  aggregate_algo : Key;
  aggregate_round_idx : Z
}.

(** Modelled from the spec: the record written by an evaluation node, whose
    class is not part of the sources at hand (section 4.4: it consumes the
    result of one train operation, for one round). *)
Record TestTuple : Type := mkTestTuple {
  traintuple_id : Key;
  test_round_idx : Z
}.

(** ** The store

    Nodes are Python objects whose [tuples] list is appended to in place.  A
    node is designated by its identity [oid]; the logs live in the store under
    that identity, so that two occurrences of one node in a list share one
    log.  [uuid.uuid4()] reads the random source of the process: [urandom] is
    the sequence it will deliver and [drawn] the number of identifiers taken
    so far. *)
Record World : Type := mkWorld {
  train_tuples : gmap nat (list TrainTuple);
  aggregate_tuples : gmap nat (list AggregateTuple);
  test_tuples : gmap nat (list TestTuple);
  urandom : nat -> Key;
  drawn : nat
}.

Definition train_log (w : World) (oid : nat) : list TrainTuple :=
  default [] (train_tuples w !! oid).
Definition aggregate_log (w : World) (oid : nat) : list AggregateTuple :=
  default [] (aggregate_tuples w !! oid).
Definition test_log (w : World) (oid : nat) : list TestTuple :=
  default [] (test_tuples w !! oid).

(** [op_id = uuid.uuid4().hex] *)
Definition uuid4_hex (w : World) : Key * World :=
  (urandom w (drawn w),
   mkWorld (train_tuples w) (aggregate_tuples w) (test_tuples w)
           (urandom w) (S (drawn w))).

(** [self.tuples.append(t)] on the three kinds of node. *)
Definition append_train (oid : nat) (t : TrainTuple) (w : World) : World :=
  mkWorld (<[oid := train_log w oid ++ [t]]> (train_tuples w))
          (aggregate_tuples w) (test_tuples w) (urandom w) (drawn w).
Definition append_aggregate (oid : nat) (t : AggregateTuple) (w : World) : World :=
  mkWorld (train_tuples w)
          (<[oid := aggregate_log w oid ++ [t]]> (aggregate_tuples w))
          (test_tuples w) (urandom w) (drawn w).
Definition append_test (oid : nat) (t : TestTuple) (w : World) : World :=
  mkWorld (train_tuples w) (aggregate_tuples w)
          (<[oid := test_log w oid ++ [t]]> (test_tuples w))
          (urandom w) (drawn w).

(** ** Operation descriptors *)

(** Modelled from the spec: the decorators [remote] and [remote_data]
    (connectlib/remote) are not part of the sources at hand.  Calling a
    decorated method does not run it; it returns a descriptor made of the
    identity of the method and of the references it was called with
    (section 6, "backend submission interface"). *)
Record DataOperation : Type := mkDataOperation {
  remote_struct : Key;
  data_samples : list Key;
  shared_state : option SharedStateRef
}.

(** Modelled from the spec: the descriptor of an aggregation operation, as
    above, for a method decorated with [remote]. *)
Record AggregateOperation : Type := mkAggregateOperation {
  aggregate_struct : Key;
  shared_states : list SharedStateRef
}.

(** Modelled from the spec: the user algorithm (connectlib/algorithms/algo.py
    is not part of the sources at hand; algo_old.py predates the remote
    interface), reduced to the identities of its two remote methods. *)
Record Algo : Type := mkAlgo {
  train_key : Key;
  predict_key : Key
}.

(** Modelled from the spec: [algo.train(data_samples, shared_state=...)] under
    [remote_data] yields the descriptor of the call. *)
Definition Algo_train (algo : Algo) (data_samples : list Key)
    (shared_state : option SharedStateRef) : DataOperation :=
  mkDataOperation (train_key algo) data_samples shared_state.

(** Modelled from the spec: [algo.predict(data_samples=..., shared_state=...,
    fake_traintuple=...)] under [remote_data] yields the descriptor of the
    call. *)
Definition Algo_predict (algo : Algo) (data_samples : list Key)
    (shared_state : option SharedStateRef) (fake_traintuple : bool) : DataOperation :=
  mkDataOperation (predict_key algo) data_samples shared_state.

(** ** nodes/train_data_node.py *)

Module TrainDataNode.

(** The attributes set by [TrainDataNode.__init__], with the identity [oid]
    of the object; its [tuples] are in the store. *)
Record t : Type := mk {
  oid : nat;
  node_id : string;
  data_manager_key : Key;
  data_sample_keys : list Key;
  objective_name : string
}.

(** [TrainDataNode.compute]; [operation] is given by its [key]. *)
Definition compute (self : t) (operation : Key)
    (data_sample_keys : option (list Key))
    (local_state : option LocalStateRef)
    (shared_state : option SharedStateRef)
    (w : World) : (LocalStateRef * SharedStateRef) * World :=
  let data_sample_keys :=
    match data_sample_keys with
    | None => TrainDataNode.data_sample_keys self
    | Some ks => ks
    end in
  let '(op_id, w) := uuid4_hex w in
  let train_tuple :=
    mkTrainTuple
      (* algo_key *) operation
      (* data_manager_key *) (data_manager_key self)
      (* train_data_sample_keys *) data_sample_keys
      (* in_head_model_id *) (local_key <$> local_state)
      (* in_trunk_model_id *) (shared_key <$> shared_state)
      (* tag *) "train"
      (* composite_traintuple_id *) op_id in
  let w := append_train (oid self) train_tuple w in
  ((mkLocalStateRef op_id, mkSharedStateRef op_id), w).

(** Modelled from the spec: [update_states], the entry point used by the
    strategy, is missing from train_data_node.py, which has [compute].
    Section 4.2 gives one operation, [compute(descriptor, data_sample_keys?,
    local_state_ref?, shared_state_ref?)]: the sample keys and the shared
    state travel inside the descriptor, and the record written by [compute]
    has no field for the round index. *)
Definition update_states (self : t) (operation : DataOperation)
    (local_state : option LocalStateRef) (round_idx : Z)
    (w : World) : (LocalStateRef * SharedStateRef) * World :=
  compute self (remote_struct operation) (Some (data_samples operation))
          local_state (shared_state operation) w.

End TrainDataNode.

(** ** Evaluation and aggregation nodes *)

Module TestDataNode.

(** Modelled from the spec: an evaluation node (test_data_node.py is not
    part of the sources at hand), by its object identity and its [node_id]. *)
Record t : Type := mk {
  oid : nat;
  node_id : string
}.

(** Modelled from the spec: test_data_node.py is not part of the sources at
    hand.  Section 4.4: "issue an evaluation operation on the evaluation
    node consuming that result"; section 3: an operation record is appended
    to the ordered log of the node and carries a round index. *)
Definition update_states (self : t) (traintuple_id : Key) (round_idx : Z)
    (w : World) : World :=
  append_test (oid self) (mkTestTuple traintuple_id round_idx) w.

End TestDataNode.

Module AggregationNode.

(** Modelled from the spec: aggregation_node.py is not part of the sources at
    hand.  The strategy only calls [update_states] on the aggregation node it
    is given: the node is the interface made of that method, which may append
    to logs, draw identifiers, and raise. *)
Record t : Type := mk {
  update_states :
    AggregateOperation -> Z -> World -> Result SharedStateRef * World
}.

(** Modelled from the spec: aggregation_node.py is not part of the sources
    at hand.  Section 4.3: the mirror of [TrainDataNode.compute], taking the
    sequence of shared-state references and producing exactly one new
    reference, bound to a fresh operation id; it holds no data samples. *)
Definition node (oid : nat) (node_id : string) : t :=
  mk (fun operation round_idx w =>
        let '(op_id, w) := uuid4_hex w in
        let aggregate_tuple :=
          {| aggregatetuple_id := op_id;
             worker := node_id;
             in_models_ids := shared_key <$> shared_states operation;
             aggregate_algo := aggregate_struct operation;
             aggregate_round_idx := round_idx |} in
        (Ok (mkSharedStateRef op_id), append_aggregate oid aggregate_tuple w)).

(** A node whose backend refuses every aggregation operation. *)
Definition rejecting (e : PyError) : t :=
  mk (fun _ _ w => (Raise e, w)).

End AggregationNode.

(** ** Sequences and arrays *)

(** [l[i]] for a list and a non-negative index. *)
Definition getitem {A} (l : list A) (i : nat) : Result A :=
  match l !! i with
  | Some x => Ok x
  | None => Raise IndexError
  end.

(** [for x in l: body(x)], stopping at the first exception. *)
Fixpoint rforM {A} (l : list A) (body : A -> Result unit) : Result unit :=
  match l with
  | [] => Ok tt
  | x :: l' => _ <-! body x ;; rforM l' body
  end.

(** [out = []; for x in l: out.append(body(x))]. *)
Fixpoint rmapM {A B} (body : A -> Result B) (l : list A) : Result (list B) :=
  match l with
  | [] => Ok []
  | x :: l' => y <-! body x ;; ys <-! rmapM body l' ;; Ok (y :: ys)
  end.

(** A numpy array, by its flattened data; two arrays have the same shape when
    they have the same number of entries. *)
Definition ndarray : Type := list Qc.

Definition Z2Qc (n : Z) : Qc := Q2Qc (inject_Z n).

(** [c * a] for a scalar [c]. *)
Definition np_scale (c : Qc) (a : ndarray) : ndarray := Qcmult c <$> a.

(** [a + b]; arrays of different shapes cannot be stacked.  (Division, used
    for the client weights, is that of [Qc]: exact, with [x / 0 = 0] where
    numpy gives [nan] or [inf].) *)
Definition np_add (a b : ndarray) : Result ndarray :=
  if (length a =? length b)%nat then Ok (zip_with Qcplus a b)
  else Raise ValueError.

Fixpoint np_accumulate (acc : ndarray) (arrays : list ndarray) : Result ndarray :=
  match arrays with
  | [] => Ok acc
  | a :: arrays' => acc' <-! np_add acc a ;; np_accumulate acc' arrays'
  end.

(** [np.sum(arrays, axis=0)]: the arrays are stacked (which requires one
    shape) and added entry by entry; the sum of no array is the scalar 0. *)
Definition np_sum_axis0 (arrays : list ndarray) : Result ndarray :=
  match arrays with
  | [] => Ok [0%Qc]
  | a :: arrays' => np_accumulate a arrays'
  end.

(** [np.testing.assert_array_equal(c, ci)] *)
Definition assert_array_equal (c ci : ndarray) : Result unit :=
  assert (bool_decide (c = ci)).

(** ** schemas: the payloads exchanged with the aggregator *)

Module ScaffoldSharedState.
(** Modelled from the spec: connectlib/schemas.py is not part of the sources
    at hand; the fields are those scaffold.py reads (section 3, "Scaffold
    state"). *)
Record t : Type := mk {
  control_variate_update : list ndarray;
  weight_update : list ndarray;
  server_control_variate : list ndarray;
  n_samples : Z
}.
End ScaffoldSharedState.

Module ScaffoldAveragedStates.
(** Modelled from the spec: connectlib/schemas.py is not part of the sources
    at hand; the fields are the two keyword arguments scaffold.py builds the
    result with. *)
Record t : Type := mk {
  server_control_variate : list ndarray;
  avg_weight_update : list ndarray
}.
End ScaffoldAveragedStates.

(** ** strategies/scaffold.py *)

Module Scaffold.
Import ScaffoldSharedState.

Record t : Type := mk {
  _aggregation_lr : Qc;
  _local_states : option (list LocalStateRef);
  _avg_shared_state : option SharedStateRef
}.

(** [Scaffold.__init__] *)
Definition __init__ (aggregation_lr : Qc) : Result t :=
  if bool_decide (aggregation_lr < 0)%Qc then Raise ValueError
  else Ok (mk aggregation_lr None None).

(** The body of the loop of [_check_shared_states], for one shared state;
    [first] is [shared_states[0]]. *)
Definition check_shared_state (first shared_state : ScaffoldSharedState.t)
    : Result unit :=
  _ <-! assert (length (control_variate_update shared_state)
                =? length (control_variate_update first))%nat ;;
  _ <-! assert (length (weight_update shared_state)
                =? length (weight_update first))%nat ;;
  _ <-! assert (length (server_control_variate shared_state)
                =? length (server_control_variate first))%nat ;;
  rforM (zip (server_control_variate first) (server_control_variate shared_state))
        (fun '(c, ci) => assert_array_equal c ci).

(** [Scaffold._check_shared_states] *)
Definition _check_shared_states (shared_states : list ScaffoldSharedState.t)
    : Result unit :=
  _ <-! assert (bool_decide (shared_states ≠ [])) ;;
  first <-! getitem shared_states 0 ;;
  _ <-! rforM shared_states (check_shared_state first) ;;
  assert ((length (control_variate_update first)
           =? length (server_control_variate first))%nat
          && (length (server_control_variate first)
              =? length (weight_update first))%nat).

(** [Scaffold._weight_arrays] *)
Definition _weight_arrays (client_weight : list Qc)
    (states_to_aggregate : list (list ndarray)) (layer_idx : nat)
    : Result (list ndarray) :=
  _ <-! assert (length client_weight =? length states_to_aggregate)%nat ;;
  rmapM (fun client_idx =>
           state <-! getitem states_to_aggregate client_idx ;;
           layer_values <-! getitem state layer_idx ;;
           weight <-! getitem client_weight client_idx ;;
           Ok (np_scale weight layer_values))
        (seq 0 (length states_to_aggregate)).

(** [Scaffold._update_server_control_variate] *)
Definition _update_server_control_variate
    (server_control_variate : list ndarray)
    (control_variate_updates : list (list ndarray))
    (client_weight : list Qc) : Result (list ndarray) :=
  first <-! getitem control_variate_updates 0 ;;
  rmapM (fun layer_idx =>
           weighted_arrays <-!
             _weight_arrays client_weight control_variate_updates layer_idx ;;
           c <-! getitem server_control_variate layer_idx ;;
           np_sum_axis0 (weighted_arrays ++ [c]))
        (seq 0 (length first)).

(** [Scaffold._avg_weight_update] *)
Definition _avg_weight_update (self : t)
    (weight_updates : list (list ndarray))
    (client_weight : list Qc) : Result (list ndarray) :=
  first <-! getitem weight_updates 0 ;;
  rmapM (fun layer_idx =>
           weighted_arrays <-!
             _weight_arrays client_weight weight_updates layer_idx ;;
           total <-! np_sum_axis0 weighted_arrays ;;
           Ok (np_scale (_aggregation_lr self) total))
        (seq 0 (length first)).

(** [Scaffold.avg_shared_states], the function that the backend runs on the
    payloads of the participants.  The counts are added in [Z] and divided in
    [Qc]: this is numpy's [n_samples_per_client / np.sum(...)] as long as the
    int64 sum does not wrap around and the total is not zero; for other
    counts numpy returns wrapped weights, [nan] or [inf], and the value given
    here does not stand for its result. *)
Definition avg_shared_states (self : t)
    (shared_states : list ScaffoldSharedState.t)
    : Result ScaffoldAveragedStates.t :=
  _ <-! _check_shared_states shared_states ;;
  let n_samples_per_client := n_samples <$> shared_states in
  let all_samples := foldr Z.add 0 n_samples_per_client in
  let client_weight :=
    (fun n => (Z2Qc n / Z2Qc all_samples)%Qc) <$> n_samples_per_client in
  first <-! getitem shared_states 0 ;;
  let server_control_variate := server_control_variate first in
  new_server_control_variate <-!
    _update_server_control_variate server_control_variate
      (control_variate_update <$> shared_states) client_weight ;;
  avg_weight_update <-!
    _avg_weight_update self (weight_update <$> shared_states) client_weight ;;
  Ok (ScaffoldAveragedStates.mk new_server_control_variate avg_weight_update).

(** Modelled from the spec: under the decorator [remote], the call
    [self.avg_shared_states(shared_states=refs)] made by the strategy runs
    nothing and yields the descriptor of the aggregation operation. *)
Definition remote_avg_shared_states (self : t)
    (shared_states : list SharedStateRef) : AggregateOperation :=
  mkAggregateOperation "avg_shared_states" shared_states.

(** The loop of [perform_round] over [enumerate(train_data_nodes)], from
    position [i] on, with the two lists it appends to. *)
Fixpoint perform_round_loop (self : t) (algo : Algo)
    (train_data_nodes : list TrainDataNode.t) (i : nat) (round_idx : Z)
    (next_local_states : list LocalStateRef)
    (states_to_aggregate : list SharedStateRef)
    (w : World) : Result (list LocalStateRef * list SharedStateRef) * World :=
  match train_data_nodes with
  | [] => (Ok (next_local_states, states_to_aggregate), w)
  | node :: rest =>
      let previous_local_state :=
        match _local_states self with
        | None => Ok None
        | Some local_states => l <-! getitem local_states i ;; Ok (Some l)
        end in
      match previous_local_state with
      | Raise e => (Raise e, w)
      | Ok previous_local_state =>
          let '((next_local_state, next_shared_state), w) :=
            TrainDataNode.update_states node
              (Algo_train algo (TrainDataNode.data_sample_keys node)
                          (_avg_shared_state self))
              previous_local_state round_idx w in
          perform_round_loop self algo rest (S i) round_idx
            (next_local_states ++ [next_local_state])
            (states_to_aggregate ++ [next_shared_state]) w
      end
  end.

(** [Scaffold.perform_round].  The strategy is mutated by the two assignments
    that end the method; an exception leaves it as it was when raised. *)
Definition perform_round (self : t) (algo : Algo)
    (train_data_nodes : list TrainDataNode.t)
    (aggregation_node : AggregationNode.t) (round_idx : Z)
    (w : World) : Result unit * t * World :=
  match perform_round_loop self algo train_data_nodes 0 round_idx [] [] w with
  | (Raise e, w) => (Raise e, self, w)
  | (Ok (next_local_states, states_to_aggregate), w) =>
      match AggregationNode.update_states aggregation_node
              (remote_avg_shared_states self states_to_aggregate)
              round_idx w with
      | (Raise e, w) => (Raise e, self, w)
      | (Ok avg_shared_state, w) =>
          (Ok tt,
           mk (_aggregation_lr self) (Some next_local_states)
              (Some avg_shared_state),
           w)
      end
  end.

(** [train_data_nodes.index(train_node)]: nodes are compared by identity. *)
Fixpoint index (train_data_nodes : list TrainDataNode.t)
    (train_node : TrainDataNode.t) : Result nat :=
  match train_data_nodes with
  | [] => Raise ValueError
  | n :: rest =>
      if (TrainDataNode.oid n =? TrainDataNode.oid train_node)%nat then Ok 0%nat
      else j <-! index rest train_node ;; Ok (S j)
  end.

(** The body of the loop of [predict], for one evaluation node. *)
Definition predict_node (self : t) (algo : Algo)
    (train_data_nodes : list TrainDataNode.t) (round_idx : Z)
    (test_node : TestDataNode.t) (w : World) : Result unit * World :=
  let matching_train_nodes :=
    filter (fun train_node =>
              TrainDataNode.node_id train_node = TestDataNode.node_id test_node)
           train_data_nodes in
  match matching_train_nodes with
  | [] => (Raise NotImplementedError, w)
  | train_node :: _ =>
      let checked :=
        node_index <-! index train_data_nodes train_node ;;
        previous_local_state <-!
          (match _local_states self with
           | Some local_states =>
               l <-! getitem local_states node_index ;; Ok (Some l)
           | None => Ok None
           end) ;;
        _ <-! assert (bool_decide (is_Some previous_local_state)) ;;
        sample <-! getitem (TrainDataNode.data_sample_keys train_node) 0 ;;
        Ok (previous_local_state, sample) in
      match checked with
      | Raise e => (Raise e, w)
      | Ok (previous_local_state, sample) =>
          let '((traintuple_id_ref, _), w) :=
            TrainDataNode.update_states train_node
              (Algo_predict algo [sample] (_avg_shared_state self) true)
              previous_local_state round_idx w in
          (Ok tt,
           TestDataNode.update_states test_node (local_key traintuple_id_ref)
             round_idx w)
      end
  end.

(** [Scaffold.predict] *)
Fixpoint predict (self : t) (algo : Algo)
    (test_data_nodes : list TestDataNode.t)
    (train_data_nodes : list TrainDataNode.t) (round_idx : Z)
    (w : World) : Result unit * World :=
  match test_data_nodes with
  | [] => (Ok tt, w)
  | test_node :: rest =>
      match predict_node self algo train_data_nodes round_idx test_node w with
      | (Raise e, w) => (Raise e, w)
      | (Ok _, w) => predict self algo rest train_data_nodes round_idx w
      end
  end.

End Scaffold.

(** ** The aggregation formulas, as the specification words them *)

Module AggregationSpec.
Import ScaffoldSharedState.

(** The precondition of the aggregation is violated: no participant, two
    participants whose sequences differ in length, or two participants whose
    server control variates differ at some layer. *)
Definition precondition_violated (shared_states : list ScaffoldSharedState.t)
    : Prop :=
  shared_states = [] \/
  (exists si sj, si ∈ shared_states /\ sj ∈ shared_states /\
     (length (control_variate_update si) ≠ length (control_variate_update sj) \/
      length (weight_update si) ≠ length (weight_update sj) \/
      length (server_control_variate si) ≠ length (server_control_variate sj))) \/
  (exists si sj k c ci, si ∈ shared_states /\ sj ∈ shared_states /\
     server_control_variate si !! k = Some c /\
     server_control_variate sj !! k = Some ci /\ c ≠ ci).

(** The arrays of one layer have one shape across the participants, so that
    they can be added: weight updates like those of the first participant,
    control-variate updates like the server control variate. *)
Definition well_shaped (shared_states : list ScaffoldSharedState.t) : Prop :=
  Forall (fun s =>
            length <$> weight_update s
              = length <$> default [] (weight_update <$> head shared_states) /\
            length <$> control_variate_update s
              = length <$> server_control_variate s)
         shared_states.

(** [Σ_j n_samples_j] and [weight_i = n_samples_i / Σ_j n_samples_j]. *)
Definition all_samples (shared_states : list ScaffoldSharedState.t) : Z :=
  foldr Z.add 0 (n_samples <$> shared_states).

Definition weight (shared_states : list ScaffoldSharedState.t)
    (s : ScaffoldSharedState.t) : Qc :=
  (Z2Qc (n_samples s) / Z2Qc (all_samples shared_states))%Qc.



Definition Qc_sum (l : list Qc) : Qc := foldr Qcplus 0%Qc l.

(** Entry [e] of an array, and of the array of layer [k]. *)
Definition item (a : ndarray) (e : nat) : Qc := default 0%Qc (a !! e).

Definition entry (layers : list ndarray) (k e : nat) : Qc :=
  item (default [] (layers !! k)) e.

(** Number of entries of the array of layer [k]. *)
Definition layer_size (layers : list ndarray) (k : nat) : nat :=
  length (default [] (layers !! k)).

(** Layer [k] of the averaged weight update:
    [learning_rate * Σ_i weight_i * weight_update_i[k]], entry by entry. *)
Definition avg_weight_update (learning_rate : Qc)
    (shared_states : list ScaffoldSharedState.t) : list ndarray :=
  let first := default [] (weight_update <$> head shared_states) in
  (fun k =>
     (fun e =>
        learning_rate *
        Qc_sum ((fun s => weight shared_states s * entry (weight_update s) k e)
                  <$> shared_states))%Qc
     <$> seq 0 (layer_size first k))
  <$> seq 0 (length first).

(** Layer [k] of the new server control variate:
    [server_control_variate[k] + Σ_i weight_i * control_variate_update_i[k]]. *)
Definition new_server_control_variate
    (shared_states : list ScaffoldSharedState.t) : list ndarray :=
  let first := default [] (server_control_variate <$> head shared_states) in
  (fun k =>
     (fun e =>
        entry first k e +
        Qc_sum ((fun s => weight shared_states s
                          * entry (control_variate_update s) k e)
                  <$> shared_states))%Qc
     <$> seq 0 (layer_size first k))
  <$> seq 0 (length first).

End AggregationSpec.

(** Rationals written as fractions. *)
Definition frac (a : Z) (b : positive) : Qc := Q2Qc (a # b).

(** ** The experiment loop *)

(** Modelled from the spec: the experiment driver (section 4.4, "the
    enclosing experiment driver decides how many rounds to run") is not part
    of the sources at hand.  It calls [perform_round] for the rounds
    [0, 1, ..., n - 1] in turn on one strategy, with the same nodes, and stops
    at the first exception. *)
Fixpoint run_rounds (n : nat) (self : Scaffold.t) (algo : Algo)
    (train_data_nodes : list TrainDataNode.t)
    (aggregation_node : AggregationNode.t) (w : World)
    : Result unit * Scaffold.t * World :=
  match n with
  | O => (Ok tt, self, w)
  | S k =>
      match run_rounds k self algo train_data_nodes aggregation_node w with
      | (Ok _, self, w) =>
          Scaffold.perform_round self algo train_data_nodes aggregation_node
            (Z.of_nat k) w
      | failed => failed
      end
  end.

(** The record that the loop of [perform_round] writes for the node at
    position [i], when the operation id drawn for it is [op_id]. *)
Definition round_record (self : Scaffold.t) (algo : Algo)
    (node : TrainDataNode.t) (i : nat) (op_id : Key) : TrainTuple :=
  mkTrainTuple (train_key algo) (TrainDataNode.data_manager_key node)
    (TrainDataNode.data_sample_keys node)
    (local_key <$> (Scaffold._local_states self ≫= (.!! i)))
    (shared_key <$> Scaffold._avg_shared_state self)
    "train" op_id.

(** An evaluation node matches when some training node has its identity
    ([node_id]). *)
Definition matches (train_data_nodes : list TrainDataNode.t)
    (test_node : TestDataNode.t) : Prop :=
  Exists (fun train_node =>
            TrainDataNode.node_id train_node = TestDataNode.node_id test_node)
         train_data_nodes.

(** ** Predicates used by the further properties *)

(** What [_check_shared_states] asks of a list of shared states: a first
    element, whose three sequences have one length, and every element agreeing
    with it on the lengths of the updates and on the server control variate. *)
Definition shared_states_consistent
    (shared_states : list ScaffoldSharedState.t) : Prop :=
  exists first,
    head shared_states = Some first /\
    length (ScaffoldSharedState.control_variate_update first)
      = length (ScaffoldSharedState.server_control_variate first) /\
    length (ScaffoldSharedState.server_control_variate first)
      = length (ScaffoldSharedState.weight_update first) /\
    Forall (fun s =>
      length (ScaffoldSharedState.control_variate_update s)
        = length (ScaffoldSharedState.control_variate_update first) /\
      length (ScaffoldSharedState.weight_update s)
        = length (ScaffoldSharedState.weight_update first) /\
      ScaffoldSharedState.server_control_variate s
        = ScaffoldSharedState.server_control_variate first) shared_states.

(** Every operation id found in a train log was delivered by the random
    source of the store, at a position already consumed. *)
Definition ids_drawn (w : World) : Prop :=
  forall oid record,
    record ∈ train_log w oid ->
    exists k, (k < drawn w)%nat /\
              composite_traintuple_id record = urandom w k.

(** What [predict] leaves behind for the evaluation node [t], between the
    stores [w] and [w']: one more evaluation record, for the round given,
    which consumes a train record found in the log of the first training node
    with the identity of [t]; that train record runs the predict method on the
    first sample key of the node, from the local state the strategy holds for
    the position of the node and from its current shared state. *)
Definition evaluation_recorded (self : Scaffold.t) (algo : Algo)
    (train_data_nodes : list TrainDataNode.t) (round_idx : Z)
    (t : TestDataNode.t) (w w' : World) : Prop :=
  exists evaluation j n record sample,
    test_log w' (TestDataNode.oid t)
      = test_log w (TestDataNode.oid t) ++ [evaluation] /\
    test_round_idx evaluation = round_idx /\
    train_data_nodes !! j = Some n /\
    TrainDataNode.node_id n = TestDataNode.node_id t /\
    (forall j' n', (j' < j)%nat -> train_data_nodes !! j' = Some n' ->
                   TrainDataNode.node_id n' ≠ TestDataNode.node_id t) /\
    record ∈ train_log w' (TrainDataNode.oid n) /\
    composite_traintuple_id record = traintuple_id evaluation /\
    in_head_model_id record
      = local_key <$> (Scaffold._local_states self ≫= (.!! j)) /\
    in_trunk_model_id record = shared_key <$> Scaffold._avg_shared_state self /\
    algo_key record = predict_key algo /\
    head (TrainDataNode.data_sample_keys n) = Some sample /\
    train_data_sample_keys record = [sample].

(** ** A sample deployment, used to run the definitions *)

Definition sample_urandom (n : nat) : Key := "op" +:+ pretty n.
Definition sample_world : World := mkWorld ∅ ∅ ∅ sample_urandom 0.
Definition sample_algo : Algo := mkAlgo "train" "predict".
Definition sample_node1 : TrainDataNode.t :=
  TrainDataNode.mk 1 "org1" "dm1" ["s1"; "s2"] "accuracy".
Definition sample_node2 : TrainDataNode.t :=
  TrainDataNode.mk 2 "org2" "dm2" ["s3"] "accuracy".
Definition sample_aggregator : AggregationNode.t := AggregationNode.node 9 "org0".
Definition sample_strategy : Scaffold.t := Scaffold.mk 1%Qc None None.
Definition sample_test_node1 : TestDataNode.t := TestDataNode.mk 11 "org1".
Definition sample_test_node3 : TestDataNode.t := TestDataNode.mk 13 "org3".
Definition sample_advanced_strategy : Scaffold.t :=
  Scaffold.mk 1%Qc (Some [mkLocalStateRef "a"; mkLocalStateRef "b"])
              (Some (mkSharedStateRef "c")).

Definition sample_strategy_lr2 : Scaffold.t := Scaffold.mk (frac 2 1) None None.

(** * Properties *)

(** ** Facts about the store *)

Lemma train_log_append_eq oid t w :
  train_log (append_train oid t w) oid = train_log w oid ++ [t].
Proof. unfold train_log at 1, append_train; simpl. by rewrite lookup_insert_eq. Qed.

Lemma train_log_append_ne oid oid' t w :
  oid ≠ oid' -> train_log (append_train oid t w) oid' = train_log w oid'.
Proof.
  intros Hne. unfold train_log, append_train; simpl.
  by rewrite lookup_insert_ne.
Qed.

Lemma aggregate_log_append_eq oid t w :
  aggregate_log (append_aggregate oid t w) oid = aggregate_log w oid ++ [t].
Proof.
  unfold aggregate_log at 1, append_aggregate; simpl.
  by rewrite lookup_insert_eq.
Qed.

Lemma test_log_append_eq oid t w :
  test_log (append_test oid t w) oid = test_log w oid ++ [t].
Proof. unfold test_log at 1, append_test; simpl. by rewrite lookup_insert_eq. Qed.

Lemma test_log_append_ne oid oid' t w :
  oid ≠ oid' -> test_log (append_test oid t w) oid' = test_log w oid'.
Proof.
  intros Hne. unfold test_log, append_test; simpl.
  by rewrite lookup_insert_ne.
Qed.

(** What one call of [compute] does to the store. *)
Lemma compute_spec self operation dsk local_state shared_state w :
  TrainDataNode.compute self operation dsk local_state shared_state w =
  let op_id := urandom w (drawn w) in
  let train_tuple :=
    mkTrainTuple operation (TrainDataNode.data_manager_key self)
      (default (TrainDataNode.data_sample_keys self) dsk)
      (local_key <$> local_state) (shared_key <$> shared_state)
      "train" op_id in
  ((mkLocalStateRef op_id, mkSharedStateRef op_id),
   mkWorld (<[TrainDataNode.oid self :=
               train_log w (TrainDataNode.oid self) ++ [train_tuple]]>
              (train_tuples w))
           (aggregate_tuples w) (test_tuples w) (urandom w) (S (drawn w))).
Proof. by destruct dsk. Qed.

(** ** Index generator *)

(** C9.  Construction of the index generator raises the invalid-argument
    error when [n_samples < 0] or a given [batch_size < 0].  Otherwise (the
    seed being one that numpy's [default_rng] accepts) it succeeds, and the
    effective batch size is [n_samples] when [batch_size] is [None] or
    greater than [n_samples], and [batch_size] otherwise. *)
Theorem init_batch_size (Generator : Type) (default_rng : Z -> Result Generator)
    (n_samples : Z) (batch_size : option Z) (num_updates : Z)
    (shuffle drop_last : bool) (seed : Z) :
  let r := BaseIndexGenerator.__init__ default_rng n_samples batch_size
             num_updates shuffle drop_last seed in
  (n_samples < 0 \/ (exists b, batch_size = Some b /\ b < 0) ->
   r = Raise ValueError) /\
  (0 <= n_samples -> (forall b, batch_size = Some b -> 0 <= b) ->
   forall rng, default_rng seed = Ok rng ->
   exists g, r = Ok g /\
     BaseIndexGenerator._n_samples g = n_samples /\
     (batch_size = None \/ (exists b, batch_size = Some b /\ b > n_samples) ->
      BaseIndexGenerator._batch_size g = n_samples) /\
     (forall b, batch_size = Some b -> b <= n_samples ->
      BaseIndexGenerator._batch_size g = b)).
Proof.
  unfold BaseIndexGenerator.__init__. split.
  - intros [Hn | (b & -> & Hb)].
    + by rewrite (proj2 (Z.ltb_lt _ _) Hn).
    + destruct (n_samples <? 0); [done |].
      by rewrite (proj2 (Z.ltb_lt _ _) Hb).
  - intros Hn Hb rng Hrng.
    rewrite (proj2 (Z.ltb_ge _ _) Hn).
    destruct batch_size as [b |]; simpl.
    + specialize (Hb b eq_refl). rewrite (proj2 (Z.ltb_ge _ _) Hb).
      destruct (Z.gtb_spec b n_samples) as [Hgt | Hle]; simpl;
        rewrite Hrng; simpl; eexists; (split; [reflexivity |]); simpl.
      * split; [done |]. split; [done |]. intros b' [= <-] ?. lia.
      * split; [done |]. split.
        -- intros [? | (b' & [= <-] & ?)]; [done | lia].
        -- by intros b' [= <-] _.
    + rewrite Hrng; simpl. eexists; split; [reflexivity |]; simpl.
      split; [done |]. split; [done |]. by intros b' ?.
Qed.

Lemma init_batch_size_witness :
  exists g, BaseIndexGenerator.__init__ BaseIndexGenerator.seed_as_state
              10 (Some 32) 5 true false 42 = Ok g /\
            BaseIndexGenerator._batch_size g = 10.
Proof.
  destruct (proj2 (init_batch_size Z BaseIndexGenerator.seed_as_state
                     10 (Some 32) 5 true false 42))
    with (rng := 42) as (g & Hg & _ & Hbig & _).
  - lia.
  - intros b [= <-]. lia.
  - reflexivity.
  - exists g. split; [exact Hg |]. apply Hbig. right. exists 32. split; [done | lia].
Defined.

(** C8, as the specification has it, fails: with [num_updates = 0] the
    constructor returns a generator. *)
Lemma init_accepts_zero_num_updates :
  (0 <= 0) /\
  BaseIndexGenerator.__init__ BaseIndexGenerator.seed_as_state
    10 (Some 3) 0 true true 42
  = Ok (BaseIndexGenerator.mk 10 3 42 true true 0 0 0).
Proof. split; [lia | reflexivity]. Qed.

(** C8, amended.  The constructor never inspects [num_updates]: whether it
    raises, and what it raises, does not depend on [num_updates]; when
    [n_samples] and [batch_size] are valid and the seed is accepted, it
    succeeds for every [num_updates], positive or not, and stores it as
    given. *)
Theorem init_ignores_num_updates (Generator : Type)
    (default_rng : Z -> Result Generator)
    (n_samples : Z) (batch_size : option Z) (num_updates : Z)
    (shuffle drop_last : bool) (seed : Z) :
  (forall e num_updates',
     BaseIndexGenerator.__init__ default_rng n_samples batch_size
       num_updates shuffle drop_last seed = Raise e ->
     BaseIndexGenerator.__init__ default_rng n_samples batch_size
       num_updates' shuffle drop_last seed = Raise e) /\
  (0 <= n_samples -> (forall b, batch_size = Some b -> 0 <= b) ->
   forall rng, default_rng seed = Ok rng ->
   exists g,
     BaseIndexGenerator.__init__ default_rng n_samples batch_size
       num_updates shuffle drop_last seed = Ok g /\
     BaseIndexGenerator._num_updates g = num_updates).
Proof.
  unfold BaseIndexGenerator.__init__. split.
  - intros e nu'. destruct (n_samples <? 0); [done |].
    destruct batch_size as [b |]; simpl.
    + destruct (b <? 0); [done |].
      destruct (b >? n_samples); simpl; by destruct (default_rng seed).
    + by destruct (default_rng seed).
  - intros Hn Hb rng Hrng.
    rewrite (proj2 (Z.ltb_ge _ _) Hn).
    destruct batch_size as [b |]; simpl.
    + specialize (Hb b eq_refl). rewrite (proj2 (Z.ltb_ge _ _) Hb).
      destruct (b >? n_samples); simpl; rewrite Hrng; simpl; by eexists.
    + rewrite Hrng; simpl. by eexists.
Qed.

Lemma init_ignores_num_updates_witness :
  exists g, BaseIndexGenerator.__init__ BaseIndexGenerator.seed_as_state
              10 (Some 3) (-10) true true 42 = Ok g /\
            BaseIndexGenerator._num_updates g = -10.
Proof.
  apply (proj2 (init_ignores_num_updates Z BaseIndexGenerator.seed_as_state
                  10 (Some 3) (-10) true true 42)) with (rng := 42).
  - lia.
  - intros b [= <-]. lia.
  - reflexivity.
Defined.

(** ** Participant node *)

(** C10.  Every call of [TrainDataNode.compute] returns a local-state and a
    shared-state reference with one and the same key: the operation id just
    drawn from the random source, which is the [composite_traintuple_id] of
    the record the call writes.  Exactly one record is appended, to the log
    of that node; no other log changes. *)
Theorem compute_binds_refs_to_fresh_id (self : TrainDataNode.t)
    (operation : Key) (data_sample_keys : option (list Key))
    (local_state : option LocalStateRef) (shared_state : option SharedStateRef)
    (w : World) :
  let r := TrainDataNode.compute self operation data_sample_keys
             local_state shared_state w in
  let op_id := urandom w (drawn w) in
  let w' := r.2 in
  local_key r.1.1 = op_id /\ shared_key r.1.2 = op_id /\
  (exists record,
     train_log w' (TrainDataNode.oid self)
       = train_log w (TrainDataNode.oid self) ++ [record] /\
     composite_traintuple_id record = op_id /\
     in_head_model_id record = local_key <$> local_state /\
     in_trunk_model_id record = shared_key <$> shared_state) /\
  (forall oid, oid ≠ TrainDataNode.oid self -> train_log w' oid = train_log w oid) /\
  aggregate_tuples w' = aggregate_tuples w /\
  test_tuples w' = test_tuples w /\
  urandom w' = urandom w /\ drawn w' = S (drawn w).
Proof.
  rewrite compute_spec. cbn zeta. simpl.
  split; [done |]. split; [done |]. split.
  - eexists. split.
    + unfold train_log at 1; simpl. by rewrite lookup_insert_eq.
    + done.
  - split; [| done]. intros oid Hne.
    unfold train_log at 1; simpl. by rewrite lookup_insert_ne.
Qed.

(** ** Round orchestration *)

(** C2.  When [perform_round] raises, the strategy holds the local-state list
    and the shared-state reference it held before the call; in particular
    when the participants' operations were issued and the aggregation step
    then raises [e], the round raises [e] and the strategy is the one the
    caller passed in. Neither field is ever updated alone. *)
Theorem perform_round_failure_keeps_state (self : Scaffold.t) (algo : Algo)
    (train_data_nodes : list TrainDataNode.t)
    (aggregation_node : AggregationNode.t) (round_idx : Z) (w : World) :
  (forall e self' w',
     Scaffold.perform_round self algo train_data_nodes aggregation_node
       round_idx w = (Raise e, self', w') ->
     Scaffold._local_states self' = Scaffold._local_states self /\
     Scaffold._avg_shared_state self' = Scaffold._avg_shared_state self) /\
  (forall next_local_states states_to_aggregate w1 e w2,
     Scaffold.perform_round_loop self algo train_data_nodes 0 round_idx [] [] w
       = (Ok (next_local_states, states_to_aggregate), w1) ->
     AggregationNode.update_states aggregation_node
       (Scaffold.remote_avg_shared_states self states_to_aggregate)
       round_idx w1 = (Raise e, w2) ->
     Scaffold.perform_round self algo train_data_nodes aggregation_node
       round_idx w = (Raise e, self, w2)).
Proof.
  unfold Scaffold.perform_round. split.
  - intros e self' w'.
    destruct (Scaffold.perform_round_loop _ _ _ _ _ _ _ _) as [[[nl sa] | e1] w1].
    + destruct (AggregationNode.update_states _ _ _ _) as [[avg | e2] w2];
        [done |]. by intros [= _ <- _].
    + by intros [= _ <- _].
  - intros nl sa w1 e w2 -> Hagg. by rewrite Hagg.
Qed.

Lemma perform_round_failure_keeps_state_witness :
  exists w2,
    Scaffold.perform_round sample_strategy sample_algo
      [sample_node1; sample_node2] (AggregationNode.rejecting TypeError) 0
      sample_world
    = (Raise TypeError, sample_strategy, w2).
Proof.
  eexists.
  eapply (proj2 (perform_round_failure_keeps_state sample_strategy sample_algo
                   [sample_node1; sample_node2]
                   (AggregationNode.rejecting TypeError) 0 sample_world)).
  - reflexivity.
  - reflexivity.
Defined.

(** ** Aggregation: the consistency check *)

Lemma assert_Ok b : assert b = Ok tt -> b = true.
Proof. by destruct b. Qed.

Lemma assert_Raise b e : assert b = Raise e -> e = AssertionError.
Proof. destruct b; [done |]. by intros [= <-]. Qed.

Lemma rforM_Ok {A} (l : list A) body :
  rforM l body = Ok tt -> Forall (fun x => body x = Ok tt) l.
Proof.
  induction l as [| x l IH]; simpl; [by constructor |].
  destruct (body x) as [[] |] eqn:Hx; simpl; [| done].
  intros H. constructor; [done | by apply IH].
Qed.

Lemma rforM_Raise {A} (l : list A) body e :
  rforM l body = Raise e -> Exists (fun x => body x = Raise e) l.
Proof.
  induction l as [| x l IH]; simpl; [done |].
  destruct (body x) as [[] | e'] eqn:Hx; simpl.
  - intros H. apply Exists_cons_tl. by apply IH.
  - intros [= <-]. by apply Exists_cons_hd.
Qed.

Lemma check_shared_state_Raise first s e :
  Scaffold.check_shared_state first s = Raise e -> e = AssertionError.
Proof.
  unfold Scaffold.check_shared_state.
  destruct (assert _) as [[] |] eqn:H1; simpl; [| by intros [= <-]; eapply assert_Raise].
  destruct (assert _) as [[] |] eqn:H2 in |- *; simpl;
    [| by intros [= <-]; eapply assert_Raise].
  destruct (assert _) as [[] |] eqn:H3 in |- *; simpl;
    [| by intros [= <-]; eapply assert_Raise].
  intros H. apply rforM_Raise, Exists_exists in H as ([c ci] & _ & H).
  by eapply assert_Raise.
Qed.

Lemma zip_equal_lookup (a b : list ndarray) :
  length b = length a ->
  Forall (fun x : ndarray * ndarray =>
            (let '(c, ci) := x in assert_array_equal c ci) = Ok tt) (zip a b) ->
  b = a.
Proof.
  revert b. induction a as [| x a IH]; intros [| y b]; simpl; try done.
  intros [= Hlen] H. inversion H as [| ? ? Hxy Hrest]; subst.
  simpl in Hxy. apply assert_Ok, bool_decide_eq_true in Hxy as ->.
  f_equal. by apply IH.
Qed.

Lemma check_shared_state_Ok first s :
  Scaffold.check_shared_state first s = Ok tt ->
  length (ScaffoldSharedState.control_variate_update s)
    = length (ScaffoldSharedState.control_variate_update first) /\
  length (ScaffoldSharedState.weight_update s)
    = length (ScaffoldSharedState.weight_update first) /\
  ScaffoldSharedState.server_control_variate s
    = ScaffoldSharedState.server_control_variate first.
Proof.
  unfold Scaffold.check_shared_state.
  destruct (assert _) as [[] |] eqn:H1; simpl; [| done].
  destruct (assert _) as [[] |] eqn:H2 in |- *; simpl; [| done].
  destruct (assert _) as [[] |] eqn:H3 in |- *; simpl; [| done].
  intros H%rforM_Ok.
  apply assert_Ok, Nat.eqb_eq in H1, H2, H3.
  split; [done |]. split; [done |]. by apply zip_equal_lookup.
Qed.

(** The check raises nothing but assertion failures. *)
Lemma check_shared_states_Raise ss e :
  Scaffold._check_shared_states ss = Raise e -> e = AssertionError.
Proof.
  unfold Scaffold._check_shared_states.
  destruct ss as [| first ss]; simpl; [by intros [= <-] |].
  destruct (Scaffold.check_shared_state first first) as [[] | e1] eqn:H1; simpl;
    [| intros [= <-]; by eapply check_shared_state_Raise].
  destruct (rforM ss _) as [[] | e2] eqn:H2; simpl.
  - apply assert_Raise.
  - intros [= <-]. apply rforM_Raise, Exists_exists in H2 as (s & _ & H2).
    by eapply check_shared_state_Raise.
Qed.

(** What a list that passes the check satisfies. *)
Lemma check_shared_states_Ok ss :
  Scaffold._check_shared_states ss = Ok tt ->
  exists first,
    ss !! 0%nat = Some first /\
    length (ScaffoldSharedState.control_variate_update first)
      = length (ScaffoldSharedState.server_control_variate first) /\
    length (ScaffoldSharedState.weight_update first)
      = length (ScaffoldSharedState.server_control_variate first) /\
    Forall (fun s =>
      length (ScaffoldSharedState.control_variate_update s)
        = length (ScaffoldSharedState.control_variate_update first) /\
      length (ScaffoldSharedState.weight_update s)
        = length (ScaffoldSharedState.weight_update first) /\
      ScaffoldSharedState.server_control_variate s
        = ScaffoldSharedState.server_control_variate first) ss.
Proof.
  unfold Scaffold._check_shared_states.
  destruct ss as [| first ss]; simpl; [done |].
  destruct (Scaffold.check_shared_state first first) as [[] | e1] eqn:H1; simpl;
    [| done].
  destruct (rforM ss _) as [[] | e2] eqn:H2; simpl; [| done].
  intros H%assert_Ok. apply andb_true_iff in H as [Ha Hb].
  apply Nat.eqb_eq in Ha, Hb.
  exists first. split; [done |]. split; [done |]. split; [done |].
  constructor.
  - by apply check_shared_state_Ok.
  - apply rforM_Ok in H2. eapply Forall_impl; [exact H2 |].
    intros s Hs. by apply check_shared_state_Ok.
Qed.

(** C6.  Whenever its precondition is violated (no shared state at all, two
    participants whose control-variate-update, weight-update or
    server-control-variate sequences differ in length, or two participants
    whose server control variates differ at some layer) the aggregation
    function raises the assertion failure and returns no averaged state. *)
Theorem avg_shared_states_rejects_violation (self : Scaffold.t)
    (shared_states : list ScaffoldSharedState.t) :
  AggregationSpec.precondition_violated shared_states ->
  Scaffold.avg_shared_states self shared_states = Raise AssertionError.
Proof.
  intros Hbad. unfold Scaffold.avg_shared_states.
  destruct (Scaffold._check_shared_states shared_states) as [[] | e] eqn:Hcheck.
  - exfalso. apply check_shared_states_Ok in Hcheck
      as (first & Hfirst & _ & _ & Hall).
    rewrite Forall_forall in Hall.
    destruct Hbad as [-> | [(si & sj & Hi & Hj & Hlen)
                           | (si & sj & k & c & ci & Hi & Hj & Hc & Hci & Hne)]].
    + done.
    + destruct (Hall si Hi) as (Hi1 & Hi2 & Hi3).
      destruct (Hall sj Hj) as (Hj1 & Hj2 & Hj3).
      rewrite Hi1, Hj1, Hi2, Hj2, Hi3, Hj3 in Hlen.
      by destruct Hlen as [? | [? | ?]].
    + destruct (Hall si Hi) as (_ & _ & Hi3).
      destruct (Hall sj Hj) as (_ & _ & Hj3).
      rewrite Hi3 in Hc. rewrite Hj3 in Hci. congruence.
  - simpl. by rewrite (check_shared_states_Raise _ _ Hcheck).
Qed.

Lemma avg_shared_states_rejects_violation_witness :
  Scaffold.avg_shared_states sample_strategy
    [ScaffoldSharedState.mk [[frac 1 1]] [[frac 1 1]] [[frac 0 1]] 10;
     ScaffoldSharedState.mk [[frac 1 1]] [[frac 2 1]] [[frac 5 1]] 30]
  = Raise AssertionError.
Proof.
  apply avg_shared_states_rejects_violation.
  right; right.
  exists (ScaffoldSharedState.mk [[frac 1 1]] [[frac 1 1]] [[frac 0 1]] 10),
         (ScaffoldSharedState.mk [[frac 1 1]] [[frac 2 1]] [[frac 5 1]] 30),
         0%nat, [frac 0 1], [frac 5 1].
  split; [apply list_elem_of_here |].
  split; [apply list_elem_of_further, list_elem_of_here |].
  split; [reflexivity |]. split; [reflexivity |].
  intros H. inversion H.
Defined.


(** ** Aggregation: the formulas *)

Import AggregationSpec.

Lemma rmapM_seq_lookup {A B} (l : list A) (f : nat -> Result B) (g : A -> B) n :
  (forall i x, l !! i = Some x -> f (n + i)%nat = Ok (g x)) ->
  rmapM f (seq n (length l)) = Ok (g <$> l).
Proof.
  revert n. induction l as [| x l IH]; intros n Hf; simpl; [done |].
  rewrite <- (Nat.add_0_r n) at 1. rewrite (Hf 0%nat x eq_refl). simpl.
  rewrite (IH (S n)); [done |].
  intros i y Hy. replace (S n + i)%nat with (n + S i)%nat by lia. by apply Hf.
Qed.

Lemma rmapM_seq_Ok {B} (f : nat -> Result B) (h : nat -> B) n m :
  (forall k, (n <= k < n + m)%nat -> f k = Ok (h k)) ->
  rmapM f (seq n m) = Ok (h <$> seq n m).
Proof.
  revert n. induction m as [| m IH]; intros n Hf; simpl; [done |].
  rewrite Hf by lia. simpl. rewrite IH; [done |]. intros k Hk. apply Hf. lia.
Qed.

Lemma list_tabulate (a : ndarray) :
  a = (fun e => item a e) <$> seq 0 (length a).
Proof.
  apply list_eq. intros e. rewrite list_lookup_fmap.
  destruct (decide (e < length a)%nat) as [Hlt | Hge].
  - rewrite lookup_seq_lt by done. simpl. unfold item, ndarray in *.
    by destruct (lookup_lt_is_Some_2 a e Hlt) as [x ->].
  - rewrite lookup_seq_ge by lia. simpl. apply lookup_ge_None. lia.
Qed.

Lemma item_np_scale c a e : item (np_scale c a) e = (c * item a e)%Qc.
Proof.
  unfold item, np_scale, ndarray in *. rewrite list_lookup_fmap.
  destruct (a !! e); simpl; [done |]. symmetry. apply Qcmult_0_r.
Qed.

Lemma item_zip_with a b e :
  length a = length b ->
  item (zip_with Qcplus a b) e = (item a e + item b e)%Qc.
Proof.
  intros Hlen. unfold item, ndarray in *. rewrite lookup_zip_with.
  destruct (a !! e) as [x |] eqn:Ha; simpl.
  - destruct (b !! e) as [y |] eqn:Hb; simpl; [done |].
    apply lookup_lt_Some in Ha. apply lookup_ge_None in Hb. lia.
  - destruct (b !! e) as [y |] eqn:Hb; simpl;
      [| symmetry; apply Qcplus_0_r].
    apply lookup_lt_Some in Hb. apply lookup_ge_None in Ha. lia.
Qed.

Lemma np_accumulate_Ok acc arrays :
  Forall (fun a => length a = length acc) arrays ->
  np_accumulate acc arrays
  = Ok ((fun e => item acc e + Qc_sum ((fun a => item a e) <$> arrays))%Qc
          <$> seq 0 (length acc)).
Proof.
  revert acc. induction arrays as [| a arrays IH]; intros acc Hall; simpl.
  - f_equal. rewrite (list_tabulate acc) at 1.
    apply list_fmap_ext. intros _ e _. simpl. symmetry. apply Qcplus_0_r.
  - inversion Hall as [| ? ? Ha Hrest]; subst.
    unfold np_add. rewrite Ha, Nat.eqb_refl. simpl.
    rewrite IH.
    + rewrite length_zip_with, Ha, Nat.min_id. f_equal.
      apply list_fmap_ext. intros _ e _. simpl.
      rewrite item_zip_with by done. symmetry. apply Qcplus_assoc.
    + rewrite length_zip_with, Ha, Nat.min_id.
      eapply Forall_impl; [exact Hrest |]. simpl. intros ? ->. done.
Qed.

Lemma np_sum_axis0_Ok (arrays : list ndarray) (n : nat) :
  arrays ≠ [] ->
  Forall (fun a => length a = n) arrays ->
  np_sum_axis0 arrays
  = Ok ((fun e => Qc_sum ((fun a => item a e) <$> arrays)) <$> seq 0 n).
Proof.
  destruct arrays as [| a arrays]; [done |]. intros _ Hall.
  inversion Hall as [| ? ? Ha Hrest]; subst. simpl.
  rewrite np_accumulate_Ok; [done |].
  eapply Forall_impl; [exact Hrest |]. done.
Qed.

Lemma Qc_sum_app l1 l2 : Qc_sum (l1 ++ l2) = (Qc_sum l1 + Qc_sum l2)%Qc.
Proof.
  induction l1 as [| x l1 IH]; simpl.
  - symmetry. apply Qcplus_0_l.
  - rewrite IH. apply Qcplus_assoc.
Qed.

Lemma shape_length (l1 l2 : list ndarray) :
  length <$> l1 = length <$> l2 -> length l1 = length l2.
Proof. intros H. apply (f_equal length) in H. by rewrite !length_fmap in H. Qed.

Lemma shape_layer_size (l1 l2 : list ndarray) k :
  length <$> l1 = length <$> l2 -> layer_size l1 k = layer_size l2 k.
Proof.
  intros H. apply (f_equal (fun l => l !! k)) in H.
  rewrite !list_lookup_fmap in H. unfold layer_size, ndarray in *.
  destruct (l1 !! k), (l2 !! k); simpl in *; by simplify_eq.
Qed.

Lemma weight_arrays_Ok {S} (wt : S -> Qc) (proj : S -> list ndarray)
    (ss : list S) k :
  Forall (fun s => (k < length (proj s))%nat) ss ->
  Scaffold._weight_arrays (wt <$> ss) (proj <$> ss) k
  = Ok ((fun s => np_scale (wt s) (default [] (proj s !! k))) <$> ss).
Proof.
  intros Hk. unfold Scaffold._weight_arrays.
  rewrite !length_fmap, Nat.eqb_refl. simpl.
  apply rmapM_seq_lookup. intros i s Hs. simpl.
  unfold getitem. rewrite !list_lookup_fmap, Hs. simpl.
  rewrite Forall_forall in Hk.
  destruct (lookup_lt_is_Some_2 (proj s) k) as [layer Hlayer].
  - apply Hk. by eapply list_elem_of_lookup_2.
  - unfold ndarray in *. by rewrite Hlayer.
Qed.

Lemma weighted_layer_sum {S} (wt : S -> Qc) (proj : S -> list ndarray)
    (ss : list S) (extra : list ndarray) k n :
  ss ≠ [] ->
  Forall (fun s => layer_size (proj s) k = n) ss ->
  Forall (fun c => length c = n) extra ->
  np_sum_axis0
    (((fun s => np_scale (wt s) (default [] (proj s !! k))) <$> ss) ++ extra)
  = Ok ((fun e =>
           Qc_sum ((fun s => wt s * entry (proj s) k e) <$> ss)
           + Qc_sum ((fun c => item c e) <$> extra))%Qc
        <$> seq 0 n).
Proof.
  intros Hne Hsize Hextra.
  rewrite (np_sum_axis0_Ok _ n).
  - f_equal. apply list_fmap_ext. intros _ e _.
    rewrite fmap_app, Qc_sum_app. f_equal. f_equal.
    rewrite <- list_fmap_compose. apply list_fmap_ext. intros _ s _. simpl.
    apply item_np_scale.
  - destruct ss; [done | by simpl].
  - apply Forall_app. split; [| done].
    apply Forall_fmap. eapply Forall_impl; [exact Hsize |].
    intros s Hs. simpl. unfold np_scale. by rewrite length_fmap.
Qed.

Lemma avg_weight_update_Ok self ss first :
  head ss = Some first ->
  Forall (fun s => length <$> ScaffoldSharedState.weight_update s
                   = length <$> ScaffoldSharedState.weight_update first) ss ->
  Scaffold._avg_weight_update self
    (ScaffoldSharedState.weight_update <$> ss) (weight ss <$> ss)
  = Ok (avg_weight_update (Scaffold._aggregation_lr self) ss).
Proof.
  intros Hhead Hshape.
  unfold Scaffold._avg_weight_update, avg_weight_update, getitem.
  rewrite list_lookup_fmap, <- head_lookup, Hhead. simpl.
  apply rmapM_seq_Ok. intros k [_ Hk]. simpl in Hk.
  rewrite weight_arrays_Ok.
  - simpl.
    pose proof (weighted_layer_sum (weight ss)
      ScaffoldSharedState.weight_update ss [] k
      (layer_size (ScaffoldSharedState.weight_update first) k)) as Hsum.
    rewrite app_nil_r in Hsum. rewrite Hsum.
    + simpl. f_equal. unfold np_scale. rewrite <- list_fmap_compose.
      apply list_fmap_ext. intros _ e _. simpl. f_equal. apply Qcplus_0_r.
    + by intros ->.
    + eapply Forall_impl; [exact Hshape |]. intros s Hs. simpl.
      by apply shape_layer_size.
    + by constructor.
  - eapply Forall_impl; [exact Hshape |]. intros s Hs. simpl.
    by rewrite (shape_length _ _ Hs).
Qed.

Lemma update_server_control_variate_Ok ss first :
  head ss = Some first ->
  Forall (fun s => length <$> ScaffoldSharedState.control_variate_update s
                   = length <$> ScaffoldSharedState.server_control_variate first)
         ss ->
  Scaffold._update_server_control_variate
    (ScaffoldSharedState.server_control_variate first)
    (ScaffoldSharedState.control_variate_update <$> ss) (weight ss <$> ss)
  = Ok (new_server_control_variate ss).
Proof.
  intros Hhead Hshape.
  unfold Scaffold._update_server_control_variate, new_server_control_variate,
    getitem.
  rewrite list_lookup_fmap, <- head_lookup, Hhead. simpl.
  assert (Hfirst : length <$> ScaffoldSharedState.control_variate_update first
                   = length <$> ScaffoldSharedState.server_control_variate first).
  { rewrite Forall_forall in Hshape. apply Hshape.
    destruct ss; [done |]. injection Hhead as ->. apply list_elem_of_here. }
  rewrite (shape_length _ _ Hfirst).
  apply rmapM_seq_Ok. intros k [_ Hk]. simpl in Hk.
  rewrite weight_arrays_Ok.
  - simpl.
    destruct (lookup_lt_is_Some_2
                (ScaffoldSharedState.server_control_variate first) k Hk)
      as [c Hc].
    unfold ndarray in *. rewrite Hc. simpl.
    rewrite (weighted_layer_sum _ _ _ [c] k
               (layer_size (ScaffoldSharedState.server_control_variate first) k)).
    + f_equal. apply list_fmap_ext. intros _ e _. simpl.
      unfold entry at 2. unfold ndarray in *. rewrite Hc. simpl.
      rewrite Qcplus_0_r. apply Qcplus_comm.
    + by intros ->.
    + eapply Forall_impl; [exact Hshape |]. intros s Hs. simpl.
      by apply shape_layer_size.
    + constructor; [| done]. unfold layer_size, ndarray in *. by rewrite Hc.
  - eapply Forall_impl; [exact Hshape |]. intros s Hs. simpl.
    by rewrite (shape_length _ _ Hs).
Qed.

(** Both outputs of the aggregation, once the check has passed. *)
Lemma avg_shared_states_Ok self ss :
  Scaffold._check_shared_states ss = Ok tt ->
  well_shaped ss ->
  Scaffold.avg_shared_states self ss
  = Ok (ScaffoldAveragedStates.mk
          (new_server_control_variate ss)
          (avg_weight_update (Scaffold._aggregation_lr self) ss)).
Proof.
  intros Hcheck Hshape. unfold Scaffold.avg_shared_states.
  rewrite Hcheck. simpl.
  apply check_shared_states_Ok in Hcheck as (first & Hfirst & _ & _ & Hall).
  unfold getitem. rewrite Hfirst. simpl.
  rewrite <- head_lookup in Hfirst.
  unfold well_shaped in Hshape. rewrite Hfirst in Hshape. simpl in Hshape.
  assert (Hweight :
    (fun n => (Z2Qc n / Z2Qc (foldr Z.add 0%Z
                                (ScaffoldSharedState.n_samples <$> ss)))%Qc)
      <$> (ScaffoldSharedState.n_samples <$> ss)
    = weight ss <$> ss) by (by rewrite <- list_fmap_compose).
  rewrite Hweight.
  rewrite (update_server_control_variate_Ok ss first Hfirst).
  - simpl.
    rewrite (avg_weight_update_Ok self ss first Hfirst); [done |].
    eapply Forall_impl; [exact Hshape |]. by intros s [? _].
  - rewrite Forall_forall in *. intros s Hs.
    destruct (Hshape s Hs) as [_ ->]. by destruct (Hall s Hs) as (_ & _ & ->).
Qed.

Lemma entry_tabulate (h : nat -> nat -> Qc) (size : nat -> nat) L k e :
  (k < L)%nat -> (e < size k)%nat ->
  entry ((fun k => (fun e => h k e) <$> seq 0 (size k)) <$> seq 0 L) k e = h k e.
Proof.
  intros Hk He. unfold entry, item, ndarray.
  rewrite list_lookup_fmap, lookup_seq_lt by done. simpl.
  by rewrite list_lookup_fmap, lookup_seq_lt.
Qed.


Lemma Z2Qc_nonzero (n : Z) : n ≠ 0 -> Z2Qc n ≠ 0%Qc.
Proof.
  intros Hn Heq. apply Hn. unfold Z2Qc in Heq.
  apply (f_equal this) in Heq. simpl in Heq.
  apply Qred_eq_iff in Heq. unfold Qeq in Heq. simpl in Heq. lia.
Qed.








(** ** Round orchestration: what one round writes *)

Lemma fresh_refs_cons {A} (mk : Key -> A) (u : nat -> Key) d len (l : list A) :
  (l ++ [mk (u d)]) ++ ((fun j => mk (u (S d + j)%nat)) <$> seq 0 len)
  = l ++ ((fun j => mk (u (d + j)%nat)) <$> seq 0 (S len)).
Proof.
  rewrite <- app_assoc. f_equal. simpl. rewrite Nat.add_0_r. f_equal.
  rewrite <- fmap_S_seq, <- list_fmap_compose.
  apply list_fmap_ext. intros _ j _. simpl. do 2 f_equal. lia.
Qed.

(** The loop issues one operation per node, in the order of the list: the
    [j]-th node gets the [j]-th identifier drawn, and (the nodes being
    distinct objects) one more record in its log. *)
Lemma perform_round_loop_spec self algo nodes i round_idx nl sa w :
  (forall ls, Scaffold._local_states self = Some ls ->
              (i + length nodes <= length ls)%nat) ->
  NoDup (TrainDataNode.oid <$> nodes) ->
  exists w',
    Scaffold.perform_round_loop self algo nodes i round_idx nl sa w
    = (Ok (nl ++ ((fun j => mkLocalStateRef (urandom w (drawn w + j)%nat))
                    <$> seq 0 (length nodes)),
           sa ++ ((fun j => mkSharedStateRef (urandom w (drawn w + j)%nat))
                    <$> seq 0 (length nodes))), w') /\
    urandom w' = urandom w /\
    drawn w' = (drawn w + length nodes)%nat /\
    aggregate_tuples w' = aggregate_tuples w /\
    test_tuples w' = test_tuples w /\
    (forall oid, oid ∉ TrainDataNode.oid <$> nodes ->
                 train_log w' oid = train_log w oid) /\
    (forall j n, nodes !! j = Some n ->
       train_log w' (TrainDataNode.oid n)
       = train_log w (TrainDataNode.oid n)
         ++ [round_record self algo n (i + j)
               (urandom w (drawn w + j)%nat)]).
Proof.
  revert i nl sa w.
  induction nodes as [| node rest IH]; intros i nl sa w Hls Hnodup.
  - exists w. simpl. rewrite !app_nil_r, Nat.add_0_r.
    repeat split; try done.
  - simpl in Hls. rewrite fmap_cons in Hnodup.
    apply NoDup_cons in Hnodup as [Hnotin Hnodup].
    cbn [Scaffold.perform_round_loop].
    assert (Hprev :
      match Scaffold._local_states self with
      | Some local_states => l <-! getitem local_states i;; Ok (Some l)
      | None => Ok None
      end = Ok (Scaffold._local_states self ≫= (.!! i))).
    { destruct (Scaffold._local_states self) as [ls |] eqn:Hself; [| done].
      specialize (Hls ls eq_refl). unfold getitem. simpl.
      destruct (lookup_lt_is_Some_2 ls i) as [l ->]; [lia | done]. }
    rewrite Hprev. unfold TrainDataNode.update_states.
    rewrite compute_spec. cbn zeta.
    cbn [Algo_train remote_struct data_samples shared_state default].
    match goal with
    | |- context [Scaffold.perform_round_loop _ _ _ _ _ _ _ ?w1] =>
        set (W1 := w1)
    end.
    assert (Hu1 : urandom W1 = urandom w) by done.
    assert (Hd1 : drawn W1 = S (drawn w)) by done.
    assert (Ha1 : aggregate_tuples W1 = aggregate_tuples w) by done.
    assert (Ht1 : test_tuples W1 = test_tuples w) by done.
    assert (Hl1 : forall oid, oid ≠ TrainDataNode.oid node ->
                              train_log W1 oid = train_log w oid).
    { intros oid Hne. unfold train_log, W1. simpl.
      by rewrite lookup_insert_ne. }
    assert (Hl2 : train_log W1 (TrainDataNode.oid node)
                  = train_log w (TrainDataNode.oid node)
                    ++ [round_record self algo node i (urandom w (drawn w))]).
    { unfold train_log at 1, W1. simpl. by rewrite lookup_insert_eq. }
    clearbody W1.
    destruct (IH (S i) (nl ++ [mkLocalStateRef (urandom w (drawn w))])
                (sa ++ [mkSharedStateRef (urandom w (drawn w))]) W1)
      as (w' & Hrun & Hur & Hdr & Hagg & Htest & Hother & Hlogs).
    { intros ls Hself. specialize (Hls ls Hself). lia. }
    { done. }
    exists w'. rewrite Hrun, Hu1, Hd1.
    rewrite (fresh_refs_cons mkLocalStateRef), (fresh_refs_cons mkSharedStateRef).
    split; [done |]. split; [congruence |]. split; [simpl; lia |].
    split; [congruence |]. split; [congruence |]. split.
    + intros oid Hoid. rewrite fmap_cons, not_elem_of_cons in Hoid.
      destruct Hoid as [Hne Hoid]. rewrite (Hother oid Hoid). by apply Hl1.
    + intros [| j] n Hn; simpl in Hn.
      * injection Hn as <-. rewrite (Hother _ Hnotin), Hl2.
        by rewrite !Nat.add_0_r.
      * rewrite (Hlogs j n Hn), Hu1, Hd1.
        assert (TrainDataNode.oid n ≠ TrainDataNode.oid node) as Hne.
        { intros Heq. apply Hnotin. rewrite <- Heq.
          apply list_elem_of_fmap_2. by eapply list_elem_of_lookup_2. }
        rewrite (Hl1 _ Hne).
        by replace (S i + j)%nat with (i + S j)%nat by lia;
           replace (S (drawn w) + j)%nat with (drawn w + S j)%nat by lia.
Qed.

(** One round with the aggregation node of the specification: the new
    strategy state and what the round writes. *)
Lemma perform_round_spec self algo nodes aoid aid round_idx w :
  (forall ls, Scaffold._local_states self = Some ls ->
              (length nodes <= length ls)%nat) ->
  NoDup (TrainDataNode.oid <$> nodes) ->
  exists w',
    Scaffold.perform_round self algo nodes (AggregationNode.node aoid aid)
      round_idx w
    = (Ok tt,
       Scaffold.mk (Scaffold._aggregation_lr self)
         (Some ((fun j => mkLocalStateRef (urandom w (drawn w + j)%nat))
                  <$> seq 0 (length nodes)))
         (Some (mkSharedStateRef (urandom w (drawn w + length nodes)%nat))),
       w') /\
    urandom w' = urandom w /\
    drawn w' = S (drawn w + length nodes) /\
    test_tuples w' = test_tuples w /\
    (forall oid, oid ∉ TrainDataNode.oid <$> nodes ->
                 train_log w' oid = train_log w oid) /\
    (forall j n, nodes !! j = Some n ->
       train_log w' (TrainDataNode.oid n)
       = train_log w (TrainDataNode.oid n)
         ++ [round_record self algo n j (urandom w (drawn w + j)%nat)]) /\
    aggregate_log w' aoid
    = aggregate_log w aoid
      ++ [mkAggregateTuple (urandom w (drawn w + length nodes)%nat) aid
            ((fun j => urandom w (drawn w + j)%nat) <$> seq 0 (length nodes))
            "avg_shared_states" round_idx] /\
    (forall oid, oid ≠ aoid -> aggregate_log w' oid = aggregate_log w oid).
Proof.
  intros Hls Hnodup. unfold Scaffold.perform_round.
  destruct (perform_round_loop_spec self algo nodes 0 round_idx [] [] w)
    as (w1 & Hrun & Hur & Hdr & Hagg & Htest & Hother & Hlogs); [done | done |].
  rewrite Hrun. simpl. unfold uuid4_hex. simpl. rewrite Hur, Hdr.
  eexists. split; [reflexivity |]. simpl.
  split; [done |]. split; [done |]. split; [done |].
  split; [exact Hother |]. split; [exact Hlogs |]. split.
  - unfold aggregate_log at 1. simpl. rewrite lookup_insert_eq. simpl.
    unfold aggregate_log. rewrite Hagg. do 3 f_equal.
    by rewrite <- list_fmap_compose.
  - intros oid Hne. unfold aggregate_log. simpl.
    rewrite lookup_insert_ne by done. by rewrite Hagg.
Qed.

(** The state of the strategy and of the logs after [r] rounds run from a
    fresh strategy: nothing before round 0; afterwards the references
    produced by round [r - 1], which are those of the last records written. *)
Lemma run_rounds_spec lr algo nodes aoid aid w0 r :
  NoDup (TrainDataNode.oid <$> nodes) ->
  exists s w,
    run_rounds r (Scaffold.mk lr None None) algo nodes
      (AggregationNode.node aoid aid) w0 = (Ok tt, s, w) /\
    urandom w = urandom w0 /\
    drawn w = (drawn w0 + r * S (length nodes))%nat /\
    match r with
    | O => Scaffold._local_states s = None /\
           Scaffold._avg_shared_state s = None
    | S k =>
        let d := (drawn w0 + k * S (length nodes))%nat in
        Scaffold._local_states s
        = Some ((fun j => mkLocalStateRef (urandom w0 (d + j)%nat))
                  <$> seq 0 (length nodes)) /\
        Scaffold._avg_shared_state s
        = Some (mkSharedStateRef (urandom w0 (d + length nodes)%nat)) /\
        (forall j n, nodes !! j = Some n ->
           exists prev, last (train_log w (TrainDataNode.oid n)) = Some prev /\
                        composite_traintuple_id prev = urandom w0 (d + j)%nat) /\
        (exists aprev, last (aggregate_log w aoid) = Some aprev /\
                       aggregatetuple_id aprev
                       = urandom w0 (d + length nodes)%nat)
    end.
Proof.
  intros Hnodup. induction r as [| k IH].
  - exists (Scaffold.mk lr None None), w0. simpl.
    repeat split; try done; lia.
  - destruct IH as (s & w & Hrun & Hur & Hdr & Hstate).
    cbn [run_rounds]. rewrite Hrun.
    destruct (perform_round_spec s algo nodes aoid aid (Z.of_nat k) w)
      as (w' & Hround & Hur' & Hdr' & _ & _ & Hlogs & Hagg & _);
      [| done |].
    { intros ls Hls. destruct k as [| k']; [destruct Hstate; congruence |].
      destruct Hstate as (Hs & _). rewrite Hs in Hls. injection Hls as <-.
      by rewrite length_fmap, length_seq. }
    rewrite Hround. eexists _, w'. split; [done |].
    split; [congruence |]. split; [lia |]. cbn zeta.
    rewrite Hur, Hdr. simpl. split; [done |]. split; [done |]. split.
    + intros j n Hn. eexists. rewrite (Hlogs j n Hn), last_snoc.
      split; [done |]. simpl. by rewrite Hur, Hdr.
    + eexists. rewrite Hagg, last_snoc. split; [done |].
      simpl. by rewrite Hur, Hdr.
Qed.

(** C1.  Run rounds [0 .. r - 1] from a fresh strategy, then round [r], on
    distinct participant nodes (the participants of the strategy, in one
    order for all the rounds).  In round [r] the record written for
    participant [i] takes as local-state input the reference the strategy
    holds for position [i] and as shared-state input the reference it holds
    for the aggregate: both absent when [r = 0], and otherwise those that
    round [r - 1] produced (the ids of the last record of that participant's
    log and of the last aggregation record).  The output pairs are collected
    in participant order: the new local state at position [i] and the
    [i]-th input of the single aggregation record of the round are both
    bound to the record written for participant [i], and the new shared
    state of the strategy is bound to that aggregation record.  Identifiers
    being drawn without collision, no participant is given the reference of
    another. *)
Theorem perform_round_threads_states (aggregation_lr : Qc) (algo : Algo)
    (train_data_nodes : list TrainDataNode.t) (aoid : nat) (aid : string)
    (w0 : World) (r : nat) :
  NoDup (TrainDataNode.oid <$> train_data_nodes) ->
  let aggregation_node := AggregationNode.node aoid aid in
  exists s w s' w' aggregation,
    run_rounds r (Scaffold.mk aggregation_lr None None) algo train_data_nodes
      aggregation_node w0 = (Ok tt, s, w) /\
    Scaffold.perform_round s algo train_data_nodes aggregation_node
      (Z.of_nat r) w = (Ok tt, s', w') /\
    (r = 0%nat -> Scaffold._local_states s = None /\
                  Scaffold._avg_shared_state s = None) /\
    aggregate_log w' aoid = aggregate_log w aoid ++ [aggregation] /\
    length (in_models_ids aggregation) = length train_data_nodes /\
    Scaffold._avg_shared_state s'
      = Some (mkSharedStateRef (aggregatetuple_id aggregation)) /\
    (forall ls', Scaffold._local_states s' = Some ls' ->
                 length ls' = length train_data_nodes) /\
    (forall i n, train_data_nodes !! i = Some n ->
       exists record,
         train_log w' (TrainDataNode.oid n)
           = train_log w (TrainDataNode.oid n) ++ [record] /\
         in_head_model_id record
           = local_key <$> (Scaffold._local_states s ≫= (.!! i)) /\
         in_trunk_model_id record
           = shared_key <$> Scaffold._avg_shared_state s /\
         Scaffold._local_states s' ≫= (.!! i)
           = Some (mkLocalStateRef (composite_traintuple_id record)) /\
         in_models_ids aggregation !! i
           = Some (shared_key
                     (mkSharedStateRef (composite_traintuple_id record))) /\
         (r ≠ 0%nat ->
          exists previous aggregate,
            last (train_log w (TrainDataNode.oid n)) = Some previous /\
            last (aggregate_log w aoid) = Some aggregate /\
            in_head_model_id record
              = Some (composite_traintuple_id previous) /\
            in_trunk_model_id record
              = Some (aggregatetuple_id aggregate))) /\
    ((forall a b, urandom w0 a = urandom w0 b -> a = b) ->
     forall i j li lj, i ≠ j ->
       Scaffold._local_states s ≫= (.!! i) = Some li ->
       Scaffold._local_states s ≫= (.!! j) = Some lj ->
       li ≠ lj).
Proof.
  intros Hnodup agg.
  destruct (run_rounds_spec aggregation_lr algo train_data_nodes aoid aid w0 r
              Hnodup) as (s & w & Hrun & Hur & Hdr & Hstate).
  assert (Hlen : forall ls, Scaffold._local_states s = Some ls ->
                            (length train_data_nodes <= length ls)%nat).
  { intros ls Hls. destruct r as [| k]; [destruct Hstate; congruence |].
    destruct Hstate as (Hs & _). rewrite Hs in Hls. injection Hls as <-.
    by rewrite length_fmap, length_seq. }
  destruct (perform_round_spec s algo train_data_nodes aoid aid (Z.of_nat r) w
              Hlen Hnodup)
    as (w' & Hround & Hur' & Hdr' & _ & _ & Hlogs & Hagg & _).
  eexists s, w, _, w', _. split; [done |]. split; [exact Hround |].
  split; [| split; [exact Hagg |]; split; [| split; [| split; [| split]]]].
  - intros ->. exact Hstate.
  - simpl. by rewrite length_fmap, length_seq.
  - done.
  - simpl. intros ls' [= <-]. by rewrite length_fmap, length_seq.
  - intros i n Hn. eexists. split; [exact (Hlogs i n Hn) |].
    split; [done |]. split; [done |]. split; [| split].
    + simpl. rewrite list_lookup_fmap, lookup_seq_lt; [done |].
      by eapply lookup_lt_Some.
    + simpl. rewrite list_lookup_fmap, lookup_seq_lt; [done |].
      by eapply lookup_lt_Some.
    + intros Hr. destruct r as [| k]; [done |].
      destruct Hstate as (Hs & Ha & Hprev & aprev & Haprev & Haid).
      destruct (Hprev i n Hn) as (prev & Hlast & Hid).
      exists prev, aprev. split; [done |]. split; [done |]. simpl.
      rewrite Hs, Ha, Hid, Haid. simpl.
      rewrite list_lookup_fmap, lookup_seq_lt; [done |].
      by eapply lookup_lt_Some.
  - intros Hinj i j li lj Hij Hi Hj.
    destruct r as [| k]; [destruct Hstate as [Hs _]; by rewrite Hs in Hi |].
    destruct Hstate as (Hs & _). rewrite Hs in Hi, Hj. simpl in Hi, Hj.
    rewrite list_lookup_fmap in Hi, Hj.
    destruct (seq 0 (length train_data_nodes) !! i) as [i' |] eqn:Hi';
      [| done].
    destruct (seq 0 (length train_data_nodes) !! j) as [j' |] eqn:Hj';
      [| done].
    apply lookup_seq in Hi' as [-> _]. apply lookup_seq in Hj' as [-> _].
    simpl in Hi, Hj. injection Hi as <-. injection Hj as <-.
    intros [= Heq]. apply Hinj in Heq. lia.
Qed.

Lemma perform_round_threads_states_witness :
  exists s w s' w' aggregation,
    run_rounds 1 sample_strategy sample_algo [sample_node1; sample_node2]
      sample_aggregator sample_world = (Ok tt, s, w) /\
    Scaffold.perform_round s sample_algo [sample_node1; sample_node2]
      sample_aggregator 1 w = (Ok tt, s', w') /\
    aggregate_log w' 9 = aggregate_log w 9 ++ [aggregation] /\
    length (in_models_ids aggregation) = 2%nat /\
    exists record,
      train_log w' 2 = train_log w 2 ++ [record] /\
      in_head_model_id record
        = local_key <$> (Scaffold._local_states s ≫= (.!! 1%nat)) /\
      in_models_ids aggregation !! 1%nat
        = Some (composite_traintuple_id record).
Proof.
  destruct (perform_round_threads_states 1%Qc sample_algo
              [sample_node1; sample_node2] 9 "org0" sample_world 1)
    as (s & w & s' & w' & aggregation & Hrun & Hround & _ & Hagg & Hlen & _
        & _ & Hrecords & _).
  - apply (bool_decide_unpack (NoDup (TrainDataNode.oid
      <$> [sample_node1; sample_node2]))). by vm_compute.
  - exists s, w, s', w', aggregation. split; [exact Hrun |].
    split; [exact Hround |]. split; [exact Hagg |]. split; [exact Hlen |].
    destruct (Hrecords 1%nat sample_node2 eq_refl)
      as (record & Hlog & Hhead & _ & _ & Hin & _).
    by exists record.
Defined.

(** C3, as the specification has it, fails: a second call of [perform_round]
    for round 0, on the strategy as the first call left it, writes one more
    record in the log of each participant and in that of the aggregator. *)
Lemma perform_round_again_appends :
  exists s1 w1 s2 w2,
    Scaffold.perform_round sample_strategy sample_algo
      [sample_node1; sample_node2] sample_aggregator 0 sample_world
    = (Ok tt, s1, w1) /\
    Scaffold.perform_round s1 sample_algo
      [sample_node1; sample_node2] sample_aggregator 0 w1
    = (Ok tt, s2, w2) /\
    length (train_log w1 1) = 1%nat /\ length (train_log w2 1) = 2%nat /\
    length (train_log w1 2) = 1%nat /\ length (train_log w2 2) = 2%nat /\
    length (aggregate_log w1 9) = 1%nat /\
    length (aggregate_log w2 9) = 2%nat.
Proof.
  do 4 eexists. split; [vm_compute; reflexivity |].
  split; [vm_compute; reflexivity |]. by vm_compute.
Qed.

(** C3, amended.  [perform_round] keeps no trace of the rounds already
    performed and is not idempotent: every call that returns, whatever its
    round index and whatever the state of the strategy, appends exactly one
    new record to the log of each (distinct) participant, after the records
    already there, and exactly one new record, tagged with the round index
    given, to the aggregator's log; no other train log changes. *)
Theorem perform_round_appends_one_record_each (self : Scaffold.t) (algo : Algo)
    (train_data_nodes : list TrainDataNode.t) (aoid : nat) (aid : string)
    (round_idx : Z) (w : World) :
  (forall ls, Scaffold._local_states self = Some ls ->
              (length train_data_nodes <= length ls)%nat) ->
  NoDup (TrainDataNode.oid <$> train_data_nodes) ->
  exists self' w',
    Scaffold.perform_round self algo train_data_nodes
      (AggregationNode.node aoid aid) round_idx w = (Ok tt, self', w') /\
    (forall n, n ∈ train_data_nodes ->
       exists record,
         train_log w' (TrainDataNode.oid n)
         = train_log w (TrainDataNode.oid n) ++ [record]) /\
    (exists record,
       aggregate_log w' aoid = aggregate_log w aoid ++ [record] /\
       aggregate_round_idx record = round_idx) /\
    (forall oid, oid ∉ TrainDataNode.oid <$> train_data_nodes ->
                 train_log w' oid = train_log w oid) /\
    (forall oid, oid ≠ aoid -> aggregate_log w' oid = aggregate_log w oid).
Proof.
  intros Hlen Hnodup.
  destruct (perform_round_spec self algo train_data_nodes aoid aid round_idx w
              Hlen Hnodup)
    as (w' & Hround & _ & _ & _ & Hother & Hlogs & Hagg & Haggother).
  eexists _, w'. split; [exact Hround |]. split; [| split; [| done]].
  - intros n Hn. apply list_elem_of_lookup in Hn as [j Hj].
    eexists. exact (Hlogs j n Hj).
  - eexists. split; [exact Hagg | done].
Qed.

Lemma perform_round_appends_one_record_each_witness :
  exists self' w',
    Scaffold.perform_round
      (Scaffold.mk 1%Qc (Some [mkLocalStateRef "a"; mkLocalStateRef "b"])
                   (Some (mkSharedStateRef "c")))
      sample_algo [sample_node1; sample_node2] sample_aggregator 0 sample_world
    = (Ok tt, self', w') /\
    exists record, aggregate_log w' 9 = aggregate_log sample_world 9 ++ [record].
Proof.
  destruct (perform_round_appends_one_record_each
              (Scaffold.mk 1%Qc (Some [mkLocalStateRef "a"; mkLocalStateRef "b"])
                           (Some (mkSharedStateRef "c")))
              sample_algo [sample_node1; sample_node2] 9 "org0" 0 sample_world)
    as (self' & w' & Hround & _ & (record & Hagg & _) & _).
  - intros ls [= <-]. simpl. lia.
  - apply (bool_decide_unpack (NoDup (TrainDataNode.oid
      <$> [sample_node1; sample_node2]))). by vm_compute.
  - exists self', w'. split; [exact Hround |]. by exists record.
Defined.


(** ** Evaluation *)

Lemma filter_matching_nil train_data_nodes test_node :
  ~ matches train_data_nodes test_node ->
  filter (fun train_node =>
            TrainDataNode.node_id train_node = TestDataNode.node_id test_node)
         train_data_nodes = [].
Proof.
  intros Hno. destruct (filter _ _) as [| n l] eqn:Hf; [done |].
  exfalso. apply Hno. apply Exists_exists. exists n.
  assert (Hn : n ∈ filter (fun train_node =>
                  TrainDataNode.node_id train_node
                  = TestDataNode.node_id test_node) train_data_nodes)
    by (rewrite Hf; apply list_elem_of_here).
  apply list_elem_of_filter in Hn as [? ?]. done.
Qed.

Lemma filter_matching_cons train_data_nodes test_node :
  matches train_data_nodes test_node ->
  exists train_node l,
    filter (fun train_node =>
              TrainDataNode.node_id train_node = TestDataNode.node_id test_node)
           train_data_nodes = train_node :: l /\
    train_node ∈ train_data_nodes.
Proof.
  intros Hyes. apply Exists_exists in Hyes as (n & Hn & Hid).
  destruct (filter _ _) as [| m l] eqn:Hf.
  - exfalso. by eapply (filter_nil_not_elem_of _ _ n Hf).
  - exists m, l. split; [done |].
    assert (Hm : m ∈ filter (fun train_node =>
                    TrainDataNode.node_id train_node
                    = TestDataNode.node_id test_node) train_data_nodes)
      by (rewrite Hf; apply list_elem_of_here).
    by apply list_elem_of_filter in Hm as [_ ?].
Qed.

Lemma index_lt train_data_nodes train_node :
  train_node ∈ train_data_nodes ->
  exists j, Scaffold.index train_data_nodes train_node = Ok j /\
            (j < length train_data_nodes)%nat.
Proof.
  induction train_data_nodes as [| n rest IH]; intros Hin.
  - by apply elem_of_nil in Hin.
  - simpl. destruct (Nat.eqb_spec (TrainDataNode.oid n)
                       (TrainDataNode.oid train_node)) as [Heq | Hne].
    + exists 0%nat. split; [done | lia].
    + apply elem_of_cons in Hin as [-> | Hin]; [done |].
      destruct (IH Hin) as (j & -> & Hj). exists (S j). split; [done | lia].
Qed.

(** Before any round [predict] stops at the first evaluation node, and the
    store is left untouched. *)
Lemma predict_node_without_state self algo train_data_nodes round_idx
    test_node w :
  Scaffold._local_states self = None ->
  Scaffold.predict_node self algo train_data_nodes round_idx test_node w
  = (Raise (if decide (matches train_data_nodes test_node)
            then AssertionError else NotImplementedError), w).
Proof.
  intros Hnone. unfold Scaffold.predict_node.
  destruct (decide (matches train_data_nodes test_node)) as [Hyes | Hno].
  - destruct (filter_matching_cons _ _ Hyes) as (n & l & -> & Hn).
    destruct (index_lt _ _ Hn) as (j & -> & _). by rewrite Hnone.
  - by rewrite filter_matching_nil.
Qed.

(** With a local state for every training node, a matched evaluation node is
    processed, and only its own evaluation log grows. *)
Lemma predict_node_matched self algo train_data_nodes round_idx test_node w ls :
  Scaffold._local_states self = Some ls ->
  (length train_data_nodes <= length ls)%nat ->
  Forall (fun n => TrainDataNode.data_sample_keys n ≠ []) train_data_nodes ->
  matches train_data_nodes test_node ->
  exists w',
    Scaffold.predict_node self algo train_data_nodes round_idx test_node w
    = (Ok tt, w') /\
    forall oid, oid ≠ TestDataNode.oid test_node ->
                test_log w' oid = test_log w oid.
Proof.
  intros Hls Hlen Hkeys Hyes. unfold Scaffold.predict_node.
  destruct (filter_matching_cons _ _ Hyes) as (n & l & -> & Hn).
  destruct (index_lt _ _ Hn) as (j & -> & Hj). rewrite Hls. simpl.
  unfold getitem at 1.
  destruct (lookup_lt_is_Some_2 ls j) as [lj ->]; [lia |]. simpl.
  rewrite Forall_forall in Hkeys. specialize (Hkeys n Hn).
  destruct (TrainDataNode.data_sample_keys n) as [| k ks] eqn:Hk; [done |].
  simpl. eexists. split; [reflexivity |]. intros oid Hne.
  unfold TestDataNode.update_states, test_log, append_test. simpl.
  by rewrite lookup_insert_ne.
Qed.

(** C7, as the specification has it, fails: before any round, with one
    evaluation node that matches no training node, [predict] raises the
    not-implemented condition, not the precondition violation. *)
Lemma predict_unmatched_before_any_round :
  Scaffold._local_states sample_strategy = None /\
  [sample_test_node3] ≠ [] /\
  Scaffold.predict sample_strategy sample_algo [sample_test_node3]
    [sample_node1; sample_node2] 0 sample_world
  = (Raise NotImplementedError, sample_world).
Proof. split; [done |]. split; [done |]. reflexivity. Qed.

(** C7, amended.  For a non-empty list of evaluation nodes, [predict] before
    any round fails at the first evaluation node: with the not-implemented
    condition when that node matches no training node, with the precondition
    violation otherwise; nothing at all is recorded.  When the strategy holds
    a local state for every training node (each with a sample key), [predict]
    fails with the not-implemented condition at the first evaluation node
    that matches no training node, and the log of that node is as before the
    call. *)
Theorem predict_failures (self : Scaffold.t) (algo : Algo)
    (train_data_nodes : list TrainDataNode.t) (round_idx : Z) (w : World) :
  (forall test_node rest,
     Scaffold._local_states self = None ->
     Scaffold.predict self algo (test_node :: rest) train_data_nodes
       round_idx w
     = (Raise (if decide (matches train_data_nodes test_node)
               then AssertionError else NotImplementedError), w)) /\
  (forall ls before test_node rest,
     Scaffold._local_states self = Some ls ->
     (length train_data_nodes <= length ls)%nat ->
     Forall (fun n => TrainDataNode.data_sample_keys n ≠ []) train_data_nodes ->
     Forall (matches train_data_nodes) before ->
     Forall (fun t => TestDataNode.oid t = TestDataNode.oid test_node ->
                      TestDataNode.node_id t = TestDataNode.node_id test_node)
            before ->
     ~ matches train_data_nodes test_node ->
     exists w',
       Scaffold.predict self algo (before ++ test_node :: rest)
         train_data_nodes round_idx w = (Raise NotImplementedError, w') /\
       test_log w' (TestDataNode.oid test_node)
       = test_log w (TestDataNode.oid test_node)).
Proof.
  split.
  - intros test_node rest Hnone. cbn [Scaffold.predict].
    by rewrite predict_node_without_state.
  - intros ls before test_node rest Hls Hlen Hkeys Hbefore Hsame Hno.
    revert w. induction before as [| t before IH]; intros w.
    + exists w. split; [| done]. cbn [app Scaffold.predict].
      unfold Scaffold.predict_node. by rewrite filter_matching_nil.
    + inversion Hbefore as [| ? ? Ht Hbefore']; subst.
      inversion Hsame as [| ? ? Hid Hsame']; subst.
      destruct (predict_node_matched self algo train_data_nodes round_idx t w
                  ls Hls Hlen Hkeys Ht) as (w1 & Hnode & Hlogs).
      destruct (IH Hbefore' Hsame' w1) as (w' & Hrun & Hlog).
      exists w'. cbn [app Scaffold.predict]. rewrite Hnode.
      split; [exact Hrun |]. rewrite Hlog. apply Hlogs.
      intros Hoid. apply Hno. unfold matches in *.
      rewrite <- (Hid (eq_sym Hoid)). exact Ht.
Qed.

Lemma predict_failures_witness :
  exists w',
    Scaffold.predict sample_advanced_strategy sample_algo
      [sample_test_node1; sample_test_node3] [sample_node1; sample_node2]
      1 sample_world = (Raise NotImplementedError, w') /\
    test_log w' 13 = test_log sample_world 13.
Proof.
  apply (proj2 (predict_failures sample_advanced_strategy sample_algo
                  [sample_node1; sample_node2] 1 sample_world)
           [mkLocalStateRef "a"; mkLocalStateRef "b"]
           [sample_test_node1] sample_test_node3 []).
  - reflexivity.
  - simpl. lia.
  - by repeat constructor.
  - repeat constructor.
  - constructor; [| constructor]. by intros [=].
  - unfold matches. rewrite !Exists_cons, Exists_nil. simpl.
    by intros [? | [? | []]].
Defined.

(** * Further properties of the code *)

(** ** The consistency check, characterised *)

Lemma rforM_all_Ok {A} (l : list A) body :
  Forall (fun x => body x = Ok tt) l -> rforM l body = Ok tt.
Proof.
  induction 1 as [| x l Hx _ IH]; simpl; [done |]. by rewrite Hx.
Qed.

Lemma zip_equal_Ok (a : list ndarray) :
  rforM (zip a a) (fun '(c, ci) => assert_array_equal c ci) = Ok tt.
Proof.
  induction a as [| x a IH]; simpl; [done |].
  unfold assert_array_equal at 1. by rewrite bool_decide_eq_true_2.
Qed.

Lemma check_shared_state_passes first s :
  length (ScaffoldSharedState.control_variate_update s)
    = length (ScaffoldSharedState.control_variate_update first) ->
  length (ScaffoldSharedState.weight_update s)
    = length (ScaffoldSharedState.weight_update first) ->
  ScaffoldSharedState.server_control_variate s
    = ScaffoldSharedState.server_control_variate first ->
  Scaffold.check_shared_state first s = Ok tt.
Proof.
  intros H1 H2 H3. unfold Scaffold.check_shared_state.
  rewrite H1, H2, H3, !Nat.eqb_refl. simpl. apply zip_equal_Ok.
Qed.

Lemma check_shared_states_passes shared_states :
  shared_states_consistent shared_states ->
  Scaffold._check_shared_states shared_states = Ok tt.
Proof.
  intros (first & Hfirst & H1 & H2 & Hall).
  destruct shared_states as [| s0 rest]; [done |].
  injection Hfirst as ->. unfold Scaffold._check_shared_states. simpl.
  apply Forall_cons in Hall as [_ Hall].
  rewrite check_shared_state_passes by done. simpl.
  rewrite rforM_all_Ok.
  - simpl. by rewrite H1, H2, !Nat.eqb_refl.
  - eapply Forall_impl; [exact Hall |]. simpl. intros s (? & ? & ?).
    by apply check_shared_state_passes.
Qed.

(** [_check_shared_states] passes exactly on the consistent lists, and
    raises the assertion failure on every other list. *)
Theorem check_shared_states_characterised
    (shared_states : list ScaffoldSharedState.t) :
  (Scaffold._check_shared_states shared_states = Ok tt
   <-> shared_states_consistent shared_states) /\
  (~ shared_states_consistent shared_states ->
   Scaffold._check_shared_states shared_states = Raise AssertionError).
Proof.
  assert (Hiff : Scaffold._check_shared_states shared_states = Ok tt
                 <-> shared_states_consistent shared_states).
  { split; [| apply check_shared_states_passes].
    intros H. apply check_shared_states_Ok in H
      as (first & Hfirst & H1 & H2 & Hall).
    exists first. rewrite head_lookup. repeat split; try done; congruence. }
  split; [exact Hiff |]. intros Hno.
  destruct (Scaffold._check_shared_states shared_states) as [[] | e] eqn:Hc.
  - exfalso. by apply Hno, Hiff.
  - by rewrite (check_shared_states_Raise _ _ Hc).
Qed.

Lemma check_shared_states_characterised_witness :
  Scaffold._check_shared_states
    [ScaffoldSharedState.mk [[frac 1 1]] [[frac 1 1]] [[frac 5 1]] 10;
     ScaffoldSharedState.mk [[frac 1 1]] [[frac 1 1]] [[frac 6 1]] 30]
  = Raise AssertionError.
Proof.
  apply (proj2 (check_shared_states_characterised _)).
  intros (first & Hfirst & _ & _ & Hall). injection Hfirst as <-.
  apply Forall_cons in Hall as [_ Hall].
  apply Forall_cons in Hall as [(_ & _ & Hscv) _].
  simpl in Hscv. by injection Hscv.
Defined.

(** ** Weighting one layer *)

Lemma rmapM_Raise_first {A B} (f : A -> Result B) (l : list A) e :
  Forall (fun x => (exists y, f x = Ok y) \/ f x = Raise e) l ->
  Exists (fun x => f x = Raise e) l ->
  rmapM f l = Raise e.
Proof.
  induction 1 as [| x l Hx _ IH]; intros Hex; [by inversion Hex |].
  simpl. destruct Hx as [[y Hy] | Hx]; [| by rewrite Hx].
  rewrite Hy. simpl. rewrite IH; [done |].
  inversion Hex as [? ? Hbad | ? ? Hrest]; subst; [congruence | done].
Qed.

(** [_weight_arrays] raises the assertion failure when there are not as many
    weights as client states, raises [IndexError] when some client state has
    no layer [layer_idx], and otherwise returns one array per client, in the
    order of the clients: the layer of that client scaled by its weight. *)
Theorem weight_arrays_behaviour (client_weight : list Qc)
    (states_to_aggregate : list (list ndarray)) (layer_idx : nat) :
  (length client_weight ≠ length states_to_aggregate ->
   Scaffold._weight_arrays client_weight states_to_aggregate layer_idx
   = Raise AssertionError) /\
  (length client_weight = length states_to_aggregate ->
   Exists (fun state => (length state <= layer_idx)%nat) states_to_aggregate ->
   Scaffold._weight_arrays client_weight states_to_aggregate layer_idx
   = Raise IndexError) /\
  (length client_weight = length states_to_aggregate ->
   Forall (fun state => (layer_idx < length state)%nat) states_to_aggregate ->
   exists weighted_arrays,
     Scaffold._weight_arrays client_weight states_to_aggregate layer_idx
     = Ok weighted_arrays /\
     length weighted_arrays = length states_to_aggregate /\
     forall i weight state layer_values,
       client_weight !! i = Some weight ->
       states_to_aggregate !! i = Some state ->
       state !! layer_idx = Some layer_values ->
       weighted_arrays !! i = Some (np_scale weight layer_values)).
Proof.
  unfold Scaffold._weight_arrays, ndarray in *. split; [| split].
  - intros Hne. by rewrite (proj2 (Nat.eqb_neq _ _) Hne).
  - intros Hlen Hex. rewrite Hlen, Nat.eqb_refl. simpl.
    apply rmapM_Raise_first.
    + apply Forall_forall. intros i Hi. apply elem_of_seq in Hi as [_ Hi].
      simpl in Hi. unfold getitem.
      destruct (lookup_lt_is_Some_2 states_to_aggregate i Hi) as [st ->].
      destruct (lookup_lt_is_Some_2 client_weight i) as [wt Hwt]; [lia |].
      simpl. destruct (st !! layer_idx); simpl; [| by right].
      rewrite Hwt. simpl. left. by eexists.
    + apply Exists_exists in Hex as (st & Hst & Hshort).
      apply list_elem_of_lookup in Hst as [i Hi].
      apply Exists_exists. exists i. split.
      * apply elem_of_seq. split; [lia |]. simpl. by eapply lookup_lt_Some.
      * unfold getitem. rewrite Hi. simpl.
        by rewrite (proj2 (lookup_ge_None st layer_idx) Hshort).
  - intros Hlen Hall. rewrite Hlen, Nat.eqb_refl. simpl.
    rewrite (rmapM_seq_Ok _
      (fun i => np_scale (default 0%Qc (client_weight !! i))
                  (default [] (states_to_aggregate !! i ≫= (.!! layer_idx))))).
    + eexists. split; [done |]. split; [by rewrite length_fmap, length_seq |].
      intros i wt st layer Hwt Hst Hlayer.
      rewrite list_lookup_fmap, lookup_seq_lt by (by eapply lookup_lt_Some).
      simpl. by rewrite Hwt, Hst; simpl; rewrite Hlayer.
    + intros i [_ Hi]. simpl in Hi. unfold getitem.
      destruct (lookup_lt_is_Some_2 states_to_aggregate i Hi) as [st Hst].
      destruct (lookup_lt_is_Some_2 client_weight i) as [wt Hwt]; [lia |].
      rewrite Forall_forall in Hall.
      destruct (lookup_lt_is_Some_2 st layer_idx) as [layer Hlayer].
      { apply Hall. by eapply list_elem_of_lookup_2. }
      rewrite Hst. simpl. rewrite Hlayer. simpl. rewrite Hwt. simpl.
      done.
Qed.

Lemma weight_arrays_behaviour_witness :
  exists weighted_arrays,
    Scaffold._weight_arrays [frac 1 4; frac 3 4]
      [[[frac 1 1]]; [[frac 2 1]]] 0 = Ok weighted_arrays /\
    length weighted_arrays = 2%nat.
Proof.
  destruct (proj2 (proj2 (weight_arrays_behaviour [frac 1 4; frac 3 4]
                            [[[frac 1 1]]; [[frac 2 1]]] 0)))
    as (weighted_arrays & Hrun & Hlen & _).
  - reflexivity.
  - repeat constructor.
  - by exists weighted_arrays.
Defined.

(** ** One participant *)

(** With a single participant that holds samples, the aggregation returns
    its weight update scaled by the aggregation learning rate, and the server
    control variate increased by its control-variate update. *)
Theorem avg_shared_states_single_participant (self : Scaffold.t)
    (s : ScaffoldSharedState.t) :
  ScaffoldSharedState.n_samples s ≠ 0 ->
  length (ScaffoldSharedState.control_variate_update s)
    = length (ScaffoldSharedState.server_control_variate s) ->
  length (ScaffoldSharedState.server_control_variate s)
    = length (ScaffoldSharedState.weight_update s) ->
  length <$> ScaffoldSharedState.control_variate_update s
    = length <$> ScaffoldSharedState.server_control_variate s ->
  exists out,
    Scaffold.avg_shared_states self [s] = Ok out /\
    length (ScaffoldAveragedStates.avg_weight_update out)
      = length (ScaffoldSharedState.weight_update s) /\
    length (ScaffoldAveragedStates.server_control_variate out)
      = length (ScaffoldSharedState.server_control_variate s) /\
    (forall k e,
       (k < length (ScaffoldSharedState.weight_update s))%nat ->
       (e < layer_size (ScaffoldSharedState.weight_update s) k)%nat ->
       entry (ScaffoldAveragedStates.avg_weight_update out) k e
       = (Scaffold._aggregation_lr self
          * entry (ScaffoldSharedState.weight_update s) k e)%Qc) /\
    (forall k e,
       (k < length (ScaffoldSharedState.server_control_variate s))%nat ->
       (e < layer_size (ScaffoldSharedState.server_control_variate s) k)%nat ->
       entry (ScaffoldAveragedStates.server_control_variate out) k e
       = (entry (ScaffoldSharedState.server_control_variate s) k e
          + entry (ScaffoldSharedState.control_variate_update s) k e)%Qc).
Proof.
  intros Hn H1 H2 Hshape.
  assert (Hweight : weight [s] s = 1%Qc).
  { unfold weight, all_samples. simpl. rewrite Z.add_0_r.
    apply Qcmult_inv_r. by apply Z2Qc_nonzero. }
  eexists. split.
  - apply avg_shared_states_Ok.
    + apply check_shared_states_passes. exists s. repeat split; try done.
      by repeat constructor.
    + by repeat constructor.
  - simpl. unfold avg_weight_update, new_server_control_variate. simpl.
    rewrite !length_fmap, !length_seq.
    split; [done |]. split; [done |]. split.
    + intros k e Hk He. rewrite (entry_tabulate _ _ _ k e Hk He).
      rewrite Hweight, Qcmult_1_l. f_equal. apply Qcplus_0_r.
    + intros k e Hk He. rewrite (entry_tabulate _ _ _ k e Hk He).
      rewrite Hweight, Qcmult_1_l. f_equal. apply Qcplus_0_r.
Qed.

Lemma avg_shared_states_single_participant_witness :
  exists out,
    Scaffold.avg_shared_states sample_strategy_lr2
      [ScaffoldSharedState.mk [[frac 1 1]] [[frac 3 1]] [[frac 5 1]] 10]
    = Ok out /\
    entry (ScaffoldAveragedStates.avg_weight_update out) 0 0 = frac 6 1.
Proof.
  destruct (avg_shared_states_single_participant sample_strategy_lr2
              (ScaffoldSharedState.mk [[frac 1 1]] [[frac 3 1]] [[frac 5 1]] 10))
    as (out & Hout & _ & _ & Havg & _).
  - simpl. lia.
  - reflexivity.
  - reflexivity.
  - reflexivity.
  - exists out. split; [exact Hout |].
    rewrite (Havg 0%nat 0%nat); [| simpl; lia | vm_compute; lia].
    apply Qc_is_canon. by vm_compute.
Defined.

(** ** Index generator: what construction establishes *)

(** Every generator that [__init__] returns has a batch size between 0 and
    its number of samples, keeps the number of samples it was given, and
    starts with both counters at zero, so that resetting its counter changes
    nothing. *)
Theorem init_establishes_bounds (Generator : Type)
    (default_rng : Z -> Result Generator)
    (n_samples : Z) (batch_size : option Z) (num_updates : Z)
    (shuffle drop_last : bool) (seed : Z) (g : BaseIndexGenerator.t Generator) :
  BaseIndexGenerator.__init__ default_rng n_samples batch_size num_updates
    shuffle drop_last seed = Ok g ->
  0 <= BaseIndexGenerator._batch_size g <= BaseIndexGenerator._n_samples g /\
  BaseIndexGenerator._n_samples g = n_samples /\
  BaseIndexGenerator.counter _ g = 0 /\
  BaseIndexGenerator.n_epoch_generated _ g = 0 /\
  BaseIndexGenerator.reset_counter _ g = g.
Proof.
  unfold BaseIndexGenerator.__init__.
  destruct (Z.ltb_spec n_samples 0) as [| Hn]; [done |].
  destruct batch_size as [b |]; simpl.
  - destruct (Z.ltb_spec b 0) as [| Hb]; [done |].
    destruct (Z.gtb_spec b n_samples) as [Hgt | Hle]; simpl;
      destruct (default_rng seed) as [rng |]; simpl; try done;
      intros [= <-]; simpl; repeat split; lia.
  - destruct (default_rng seed) as [rng |]; simpl; [| done].
    intros [= <-]. simpl. repeat split; lia.
Qed.

Lemma init_establishes_bounds_witness :
  exists g,
    BaseIndexGenerator.__init__ BaseIndexGenerator.seed_as_state
      10 (Some 32) 5 true false 42 = Ok g /\
    0 <= BaseIndexGenerator._batch_size g <= BaseIndexGenerator._n_samples g.
Proof.
  eexists. split; [reflexivity |].
  apply (init_establishes_bounds Z BaseIndexGenerator.seed_as_state
           10 (Some 32) 5 true false 42). reflexivity.
Defined.

(** ** Operation ids stay fresh *)

(** [compute] keeps the invariant that every recorded operation id comes
    from the part of the random source already consumed; hence, when the
    source never repeats itself, the id it returns differs from the id of
    every record written before, in any log. *)
Theorem compute_keeps_ids_drawn (self : TrainDataNode.t) (operation : Key)
    (data_sample_keys : option (list Key))
    (local_state : option LocalStateRef) (shared_state : option SharedStateRef)
    (w : World) :
  ids_drawn w ->
  let r := TrainDataNode.compute self operation data_sample_keys
             local_state shared_state w in
  ids_drawn r.2 /\
  ((forall a b, urandom w a = urandom w b -> a = b) ->
   forall oid record,
     record ∈ train_log w oid ->
     composite_traintuple_id record ≠ local_key r.1.1).
Proof.
  intros Hinv. rewrite compute_spec. cbn zeta. simpl. split.
  - intros oid record. unfold train_log. simpl.
    destruct (decide (TrainDataNode.oid self = oid)) as [<- | Hne].
    + rewrite lookup_insert_eq. simpl. intros Hin.
      apply elem_of_app in Hin as [Hin | Hin].
      * destruct (Hinv _ _ Hin) as (k & Hk & Hid). exists k. split; [lia | done].
      * apply list_elem_of_singleton in Hin as ->. exists (drawn w).
        split; [lia | done].
    + rewrite lookup_insert_ne by done. intros Hin.
      destruct (Hinv _ _ Hin) as (k & Hk & Hid). exists k. split; [lia | done].
  - intros Hinj oid record Hin Heq.
    destruct (Hinv _ _ Hin) as (k & Hk & Hid).
    rewrite Hid in Heq. apply Hinj in Heq. lia.
Qed.

Lemma compute_keeps_ids_drawn_witness :
  ids_drawn
    (TrainDataNode.compute sample_node1 "train" None None None sample_world).2.
Proof.
  apply (compute_keeps_ids_drawn sample_node1 "train" None None None
           sample_world).
  intros oid record Hin. unfold train_log, sample_world in Hin. simpl in Hin.
  rewrite lookup_empty in Hin. by apply elem_of_nil in Hin.
Defined.

(** ** Rounds that fail *)

Lemma perform_round_loop_app self algo l1 l2 i round_idx nl sa w :
  Scaffold.perform_round_loop self algo (l1 ++ l2) i round_idx nl sa w
  = match Scaffold.perform_round_loop self algo l1 i round_idx nl sa w with
    | (Ok (nl', sa'), w1) =>
        Scaffold.perform_round_loop self algo l2 (i + length l1) round_idx
          nl' sa' w1
    | (Raise e, w1) => (Raise e, w1)
    end.
Proof.
  revert i nl sa w. induction l1 as [| n l1 IH]; intros i nl sa w.
  - simpl. by rewrite Nat.add_0_r.
  - cbn [app Scaffold.perform_round_loop length].
    destruct (match Scaffold._local_states self with
              | Some local_states => l <-! getitem local_states i;; Ok (Some l)
              | None => Ok None
              end) as [prev | e]; [| done].
    destruct (TrainDataNode.update_states _ _ _ _ _) as [[l s] w1].
    rewrite IH. by replace (S i + length l1)%nat with (i + S (length l1))%nat
      by lia.
Qed.

(** When the strategy holds fewer local states than there are nodes (nodes
    were added since the last round), [perform_round] raises [IndexError]
    and leaves the strategy as it was, without calling the aggregation node;
    but the nodes that come before the missing state have each received a
    record already, which is not taken back. *)
Theorem perform_round_too_few_local_states (self : Scaffold.t) (algo : Algo)
    (train_data_nodes : list TrainDataNode.t)
    (aggregation_node : AggregationNode.t) (round_idx : Z) (w : World)
    (local_states : list LocalStateRef) :
  Scaffold._local_states self = Some local_states ->
  (length local_states < length train_data_nodes)%nat ->
  NoDup (TrainDataNode.oid <$> train_data_nodes) ->
  exists w',
    Scaffold.perform_round self algo train_data_nodes aggregation_node
      round_idx w = (Raise IndexError, self, w') /\
    aggregate_tuples w' = aggregate_tuples w /\
    forall j n, train_data_nodes !! j = Some n ->
      train_log w' (TrainDataNode.oid n)
      = train_log w (TrainDataNode.oid n)
        ++ (if decide (j < length local_states)%nat
            then [round_record self algo n j (urandom w (drawn w + j)%nat)]
            else []).
Proof.
  intros Hls Hlen Hnodup. set (m := length local_states).
  rewrite <- (take_drop m train_data_nodes) in Hnodup.
  rewrite fmap_app in Hnodup.
  apply NoDup_app in Hnodup as (Hnodup1 & Hdisjoint & _).
  assert (Hm : length (take m train_data_nodes) = m)
    by (rewrite length_take; lia).
  destruct (perform_round_loop_spec self algo (take m train_data_nodes) 0
              round_idx [] [] w)
    as (w1 & Hrun & _ & _ & Hagg & _ & Hother & Hlogs); [| done |].
  { intros ls Hls'. rewrite Hls in Hls'. injection Hls' as <-. lia. }
  exists w1. split; [| split; [done |]].
  - unfold Scaffold.perform_round.
    rewrite <- (take_drop m train_data_nodes) at 1.
    rewrite perform_round_loop_app, Hrun, Hm. simpl.
    destruct (drop m train_data_nodes) as [| n rest] eqn:Hdrop.
    { apply (f_equal length) in Hdrop. rewrite length_drop in Hdrop.
      simpl in Hdrop. lia. }
    cbn [Scaffold.perform_round_loop]. rewrite Hls. unfold getitem.
    by rewrite (proj2 (lookup_ge_None local_states m)).
  - intros j n Hn. destruct (decide (j < m)%nat) as [Hj | Hj].
    + apply (Hlogs j n). by rewrite lookup_take_lt.
    + rewrite app_nil_r. apply Hother. intros Hin.
      apply (Hdisjoint _ Hin). apply list_elem_of_fmap_2.
      apply list_elem_of_lookup. exists (j - m)%nat.
      rewrite lookup_drop. by replace (m + (j - m))%nat with j by lia.
Qed.

Lemma perform_round_too_few_local_states_witness :
  exists w',
    Scaffold.perform_round
      (Scaffold.mk 1%Qc (Some [mkLocalStateRef "a"]) (Some (mkSharedStateRef "c")))
      sample_algo [sample_node1; sample_node2] sample_aggregator 1 sample_world
    = (Raise IndexError,
       Scaffold.mk 1%Qc (Some [mkLocalStateRef "a"]) (Some (mkSharedStateRef "c")),
       w') /\
    length (train_log w' 1) = 1%nat /\ length (train_log w' 2) = 0%nat.
Proof.
  destruct (perform_round_too_few_local_states
              (Scaffold.mk 1%Qc (Some [mkLocalStateRef "a"])
                           (Some (mkSharedStateRef "c")))
              sample_algo [sample_node1; sample_node2] sample_aggregator 1
              sample_world [mkLocalStateRef "a"])
    as (w' & Hrun & _ & Hlogs).
  - reflexivity.
  - simpl. lia.
  - apply (bool_decide_unpack (NoDup (TrainDataNode.oid
      <$> [sample_node1; sample_node2]))). by vm_compute.
  - exists w'. split; [exact Hrun |].
    pose proof (Hlogs 0%nat sample_node1 eq_refl) as H1.
    pose proof (Hlogs 1%nat sample_node2 eq_refl) as H2.
    simpl in H1, H2. by rewrite H1, H2.
Defined.

(** When the aggregation node refuses the operation, the round raises its
    error and the strategy is unchanged, but every participant has received
    one record and the operation ids have been consumed: a retry writes the
    participants' records a second time. *)
Theorem perform_round_rejected_keeps_records (self : Scaffold.t) (algo : Algo)
    (train_data_nodes : list TrainDataNode.t) (e : PyError)
    (round_idx : Z) (w : World) :
  (forall ls, Scaffold._local_states self = Some ls ->
              (length train_data_nodes <= length ls)%nat) ->
  NoDup (TrainDataNode.oid <$> train_data_nodes) ->
  exists w',
    Scaffold.perform_round self algo train_data_nodes
      (AggregationNode.rejecting e) round_idx w = (Raise e, self, w') /\
    drawn w' = (drawn w + length train_data_nodes)%nat /\
    forall j n, train_data_nodes !! j = Some n ->
      train_log w' (TrainDataNode.oid n)
      = train_log w (TrainDataNode.oid n)
        ++ [round_record self algo n j (urandom w (drawn w + j)%nat)].
Proof.
  intros Hls Hnodup.
  destruct (perform_round_loop_spec self algo train_data_nodes 0
              round_idx [] [] w)
    as (w1 & Hrun & _ & Hdr & _ & _ & _ & Hlogs); [done | done |].
  exists w1. unfold Scaffold.perform_round. rewrite Hrun. simpl.
  split; [done |]. split; [done |]. exact Hlogs.
Qed.

Lemma perform_round_rejected_keeps_records_witness :
  exists w',
    Scaffold.perform_round sample_strategy sample_algo
      [sample_node1; sample_node2] (AggregationNode.rejecting TypeError) 0
      sample_world = (Raise TypeError, sample_strategy, w') /\
    length (train_log w' 2) = 1%nat.
Proof.
  destruct (perform_round_rejected_keeps_records sample_strategy sample_algo
              [sample_node1; sample_node2] TypeError 0 sample_world)
    as (w' & Hrun & _ & Hlogs).
  - by intros ls [=].
  - apply (bool_decide_unpack (NoDup (TrainDataNode.oid
      <$> [sample_node1; sample_node2]))). by vm_compute.
  - exists w'. split; [exact Hrun |].
    pose proof (Hlogs 1%nat sample_node2 eq_refl) as H2.
    simpl in H2. by rewrite H2.
Defined.

(** ** What the aggregation operation consumes *)

(** The aggregation record of a round lists, in participant order, the
    operation ids of the records that this same round wrote for the
    participants; the strategy's new shared state is the reference bound to
    that aggregation record. *)
Theorem perform_round_aggregates_in_order (self : Scaffold.t) (algo : Algo)
    (train_data_nodes : list TrainDataNode.t) (aoid : nat) (aid : string)
    (round_idx : Z) (w : World) :
  (forall ls, Scaffold._local_states self = Some ls ->
              (length train_data_nodes <= length ls)%nat) ->
  NoDup (TrainDataNode.oid <$> train_data_nodes) ->
  exists self' w' aggregate,
    Scaffold.perform_round self algo train_data_nodes
      (AggregationNode.node aoid aid) round_idx w = (Ok tt, self', w') /\
    aggregate_log w' aoid = aggregate_log w aoid ++ [aggregate] /\
    length (in_models_ids aggregate) = length train_data_nodes /\
    Scaffold._avg_shared_state self'
      = Some (mkSharedStateRef (aggregatetuple_id aggregate)) /\
    forall i n, train_data_nodes !! i = Some n ->
      exists record,
        last (train_log w' (TrainDataNode.oid n)) = Some record /\
        in_models_ids aggregate !! i = Some (composite_traintuple_id record).
Proof.
  intros Hls Hnodup.
  destruct (perform_round_spec self algo train_data_nodes aoid aid round_idx w
              Hls Hnodup)
    as (w' & Hround & _ & _ & _ & _ & Hlogs & Hagg & _).
  eexists _, w', _. split; [exact Hround |]. split; [exact Hagg |]. simpl.
  split; [by rewrite length_fmap, length_seq |]. split; [done |].
  intros i n Hn. eexists. rewrite (Hlogs i n Hn), last_snoc.
  split; [done |]. simpl.
  rewrite list_lookup_fmap, lookup_seq_lt; [done |]. by eapply lookup_lt_Some.
Qed.

Lemma perform_round_aggregates_in_order_witness :
  exists self' w' aggregate,
    Scaffold.perform_round sample_strategy sample_algo
      [sample_node1; sample_node2] sample_aggregator 0 sample_world
    = (Ok tt, self', w') /\
    aggregate_log w' 9 = aggregate_log sample_world 9 ++ [aggregate] /\
    length (in_models_ids aggregate) = 2%nat.
Proof.
  destruct (perform_round_aggregates_in_order sample_strategy sample_algo
              [sample_node1; sample_node2] 9 "org0" 0 sample_world)
    as (self' & w' & aggregate & Hrun & Hagg & Hlen & _).
  - by intros ls [=].
  - apply (bool_decide_unpack (NoDup (TrainDataNode.oid
      <$> [sample_node1; sample_node2]))). by vm_compute.
  - by exists self', w', aggregate.
Defined.

(** ** Many rounds *)

(** [n] rounds on distinct participants never fail; they leave the earlier
    history of every log in place and add exactly [n] records to the log of
    each participant and [n] to that of the aggregator, consuming
    [n * (number of participants + 1)] operation ids. *)
Theorem run_rounds_grows_logs (aggregation_lr : Qc) (algo : Algo)
    (train_data_nodes : list TrainDataNode.t) (aoid : nat) (aid : string)
    (w0 : World) (n : nat) :
  NoDup (TrainDataNode.oid <$> train_data_nodes) ->
  exists s w,
    run_rounds n (Scaffold.mk aggregation_lr None None) algo train_data_nodes
      (AggregationNode.node aoid aid) w0 = (Ok tt, s, w) /\
    drawn w = (drawn w0 + n * S (length train_data_nodes))%nat /\
    (forall node, node ∈ train_data_nodes ->
       exists added,
         train_log w (TrainDataNode.oid node)
         = train_log w0 (TrainDataNode.oid node) ++ added /\
         length added = n) /\
    (exists added,
       aggregate_log w aoid = aggregate_log w0 aoid ++ added /\
       length added = n) /\
    (forall oid, oid ∉ TrainDataNode.oid <$> train_data_nodes ->
                 train_log w oid = train_log w0 oid).
Proof.
  intros Hnodup.
  assert (Hgen : exists s w,
    run_rounds n (Scaffold.mk aggregation_lr None None) algo train_data_nodes
      (AggregationNode.node aoid aid) w0 = (Ok tt, s, w) /\
    (forall ls, Scaffold._local_states s = Some ls ->
                (length train_data_nodes <= length ls)%nat) /\
    drawn w = (drawn w0 + n * S (length train_data_nodes))%nat /\
    (forall node, node ∈ train_data_nodes ->
       exists added,
         train_log w (TrainDataNode.oid node)
         = train_log w0 (TrainDataNode.oid node) ++ added /\
         length added = n) /\
    (exists added,
       aggregate_log w aoid = aggregate_log w0 aoid ++ added /\
       length added = n) /\
    (forall oid, oid ∉ TrainDataNode.oid <$> train_data_nodes ->
                 train_log w oid = train_log w0 oid)).
  { induction n as [| k IH].
    - exists (Scaffold.mk aggregation_lr None None), w0. simpl.
      split; [done |]. split; [done |]. split; [lia |].
      split; [| split; [| done]].
      + intros node _. exists []. by rewrite app_nil_r.
      + exists []. by rewrite app_nil_r.
    - destruct IH as (s & w & Hrun & Hls & Hdr & Htrain & (agg & Hagg & Hlenagg)
                      & Hother).
      destruct (perform_round_spec s algo train_data_nodes aoid aid
                  (Z.of_nat k) w Hls Hnodup)
        as (w' & Hround & _ & Hdr' & _ & Hother' & Hlogs & Hagg' & _).
      cbn [run_rounds]. rewrite Hrun, Hround. eexists _, w'.
      split; [done |]. split.
      { simpl. intros ls [= <-]. by rewrite length_fmap, length_seq. }
      split; [lia |]. split; [| split].
      + intros node Hnode. destruct (Htrain node Hnode) as (added & Hlog & Hlen).
        apply list_elem_of_lookup in Hnode as [j Hj].
        eexists. rewrite (Hlogs j node Hj), Hlog, <- app_assoc.
        split; [done |]. rewrite length_app. simpl. lia.
      + eexists. rewrite Hagg', Hagg, <- app_assoc. split; [done |].
        rewrite length_app. simpl. lia.
      + intros oid Hoid. by rewrite (Hother' oid Hoid), (Hother oid Hoid). }
  destruct Hgen as (s & w & Hrun & _ & Hrest). by exists s, w.
Qed.

Lemma run_rounds_grows_logs_witness :
  exists s w,
    run_rounds 3 sample_strategy sample_algo [sample_node1; sample_node2]
      sample_aggregator sample_world = (Ok tt, s, w) /\
    drawn w = 9%nat.
Proof.
  destruct (run_rounds_grows_logs 1%Qc sample_algo [sample_node1; sample_node2]
              9 "org0" sample_world 3)
    as (s & w & Hrun & Hdr & _).
  - apply (bool_decide_unpack (NoDup (TrainDataNode.oid
      <$> [sample_node1; sample_node2]))). by vm_compute.
  - by exists s, w.
Defined.

(** ** Evaluation that succeeds *)

Lemma filter_first {A} (P : A -> Prop) `{forall x, Decision (P x)}
    (l : list A) x l' :
  filter P l = x :: l' ->
  exists j, l !! j = Some x /\ P x /\
            forall j' y, (j' < j)%nat -> l !! j' = Some y -> ~ P y.
Proof.
  induction l as [| a l IH]; [done |].
  rewrite filter_cons. destruct (decide (P a)) as [Ha | Hna].
  - intros [= -> _]. exists 0%nat. split; [done |]. split; [done |]. lia.
  - intros Hf. destruct (IH Hf) as (j & Hj & Hx & Hbefore).
    exists (S j). split; [done |]. split; [done |].
    intros [| j'] y Hlt Hy; simpl in Hy.
    + by injection Hy as <-.
    + apply (Hbefore j' y); [lia | done].
Qed.

Lemma index_position train_data_nodes j n :
  NoDup (TrainDataNode.oid <$> train_data_nodes) ->
  train_data_nodes !! j = Some n ->
  Scaffold.index train_data_nodes n = Ok j.
Proof.
  revert j. induction train_data_nodes as [| a l IH]; intros j Hnodup Hj;
    [done |].
  rewrite fmap_cons in Hnodup. apply NoDup_cons in Hnodup as [Hnotin Hnodup].
  destruct j as [| j]; simpl in Hj.
  - injection Hj as ->. simpl. by rewrite Nat.eqb_refl.
  - simpl. destruct (Nat.eqb_spec (TrainDataNode.oid a) (TrainDataNode.oid n))
      as [Heq | Hne].
    + exfalso. apply Hnotin. rewrite Heq. apply list_elem_of_fmap_2.
      by eapply list_elem_of_lookup_2.
    + by rewrite (IH j Hnodup Hj).
Qed.

(** One evaluation node that matches: what its step writes. *)
Lemma predict_node_records self algo train_data_nodes round_idx t w ls :
  Scaffold._local_states self = Some ls ->
  (length train_data_nodes <= length ls)%nat ->
  Forall (fun n => TrainDataNode.data_sample_keys n ≠ []) train_data_nodes ->
  NoDup (TrainDataNode.oid <$> train_data_nodes) ->
  matches train_data_nodes t ->
  exists w',
    Scaffold.predict_node self algo train_data_nodes round_idx t w
    = (Ok tt, w') /\
    drawn w' = S (drawn w) /\
    urandom w' = urandom w /\
    aggregate_tuples w' = aggregate_tuples w /\
    (forall oid record, record ∈ train_log w oid -> record ∈ train_log w' oid) /\
    (forall oid, oid ≠ TestDataNode.oid t -> test_log w' oid = test_log w oid) /\
    evaluation_recorded self algo train_data_nodes round_idx t w w'.
Proof.
  intros Hls Hlen Hkeys Hnodup Hyes. unfold Scaffold.predict_node.
  destruct (filter_matching_cons _ _ Hyes) as (n & l & Hf & Hn).
  rewrite Hf. apply filter_first in Hf as (j & Hj & Hid & Hbefore).
  rewrite (index_position _ j n Hnodup Hj). rewrite Hls. simpl.
  unfold getitem at 1.
  destruct (lookup_lt_is_Some_2 ls j) as [lj Hlj].
  { apply lookup_lt_Some in Hj. lia. }
  rewrite Hlj. simpl.
  rewrite Forall_forall in Hkeys. specialize (Hkeys n Hn).
  destruct (TrainDataNode.data_sample_keys n) as [| k ks] eqn:Hk; [done |].
  simpl. eexists. split; [reflexivity |]. simpl.
  split; [done |]. split; [done |]. split; [done |]. split; [| split].
  - intros oid record Hin. unfold train_log in *. simpl.
    destruct (decide (TrainDataNode.oid n = oid)) as [<- | Hne].
    + rewrite lookup_insert_eq. simpl. apply elem_of_app. by left.
    + by rewrite lookup_insert_ne.
  - intros oid Hne. unfold test_log. simpl. by rewrite lookup_insert_ne.
  - eexists _, j, n, _, k. split.
    { unfold test_log at 1. simpl. by rewrite lookup_insert_eq. }
    simpl. split; [done |]. split; [done |]. split; [done |].
    split; [exact Hbefore |]. split.
    { unfold train_log at 1. simpl. rewrite lookup_insert_eq. simpl.
      apply elem_of_app. right. apply list_elem_of_here. }
    simpl. rewrite Hls. simpl. rewrite Hlj, Hk. by repeat split.
Qed.

Lemma predict_all_matched self algo train_data_nodes round_idx ls
    test_data_nodes :
  Scaffold._local_states self = Some ls ->
  (length train_data_nodes <= length ls)%nat ->
  Forall (fun n => TrainDataNode.data_sample_keys n ≠ []) train_data_nodes ->
  NoDup (TrainDataNode.oid <$> train_data_nodes) ->
  Forall (matches train_data_nodes) test_data_nodes ->
  NoDup (TestDataNode.oid <$> test_data_nodes) ->
  forall w, exists w',
    Scaffold.predict self algo test_data_nodes train_data_nodes round_idx w
    = (Ok tt, w') /\
    drawn w' = (drawn w + length test_data_nodes)%nat /\
    urandom w' = urandom w /\
    aggregate_tuples w' = aggregate_tuples w /\
    (forall oid record, record ∈ train_log w oid -> record ∈ train_log w' oid) /\
    (forall oid, oid ∉ TestDataNode.oid <$> test_data_nodes ->
                 test_log w' oid = test_log w oid) /\
    (forall t, t ∈ test_data_nodes ->
               evaluation_recorded self algo train_data_nodes round_idx t w w').
Proof.
  intros Hls Hlen Hkeys Hnodup Hall Htests.
  induction test_data_nodes as [| t0 rest IH]; intros w.
  - exists w. split; [done |]. split; [simpl; lia |]. split; [done |].
    split; [done |]. split; [done |]. split; [done |].
    intros t Ht. by apply elem_of_nil in Ht.
  - inversion Hall as [| ? ? Ht0 Hall']; subst.
    rewrite fmap_cons in Htests.
    apply NoDup_cons in Htests as [Hnotin Htests'].
    destruct (predict_node_records self algo train_data_nodes round_idx t0 w
                ls Hls Hlen Hkeys Hnodup Ht0)
      as (w1 & Hnode & Hd1 & Hu1 & Ha1 & Htrain1 & Htest1 & Hrec1).
    destruct (IH Hall' Htests' w1)
      as (w' & Hrun & Hd & Hu & Ha & Htrain & Htest & Hrec).
    exists w'. cbn [Scaffold.predict]. rewrite Hnode.
    split; [exact Hrun |]. split; [simpl; lia |]. split; [congruence |].
    split; [congruence |]. split; [| split].
    + intros oid record Hin. by apply Htrain, Htrain1.
    + intros oid Hoid. rewrite fmap_cons, not_elem_of_cons in Hoid.
      destruct Hoid as [Hne Hoid]. rewrite (Htest oid Hoid). by apply Htest1.
    + intros t Ht. apply elem_of_cons in Ht as [-> | Ht].
      * destruct Hrec1 as (ev & j & n & record & sample & Hlog & Hround & Hj
                           & Hid & Hfirst & Hin & Hcid & Hhead & Htrunk & Hkey
                           & Hsample & Hsamples).
        exists ev, j, n, record, sample. rewrite (Htest _ Hnotin).
        split; [done |]. split; [done |]. split; [done |]. split; [done |].
        split; [done |]. split; [by apply Htrain |]. done.
      * destruct (Hrec t Ht) as (ev & j & n & record & sample & Hlog & Hround
                                 & Hj & Hid & Hfirst & Hin & Hcid & Hhead
                                 & Htrunk & Hkey & Hsample & Hsamples).
        exists ev, j, n, record, sample.
        assert (TestDataNode.oid t ≠ TestDataNode.oid t0) as Hne.
        { intros Heq. apply Hnotin. rewrite <- Heq.
          by apply list_elem_of_fmap_2. }
        rewrite <- (Htest1 _ Hne). done.
Qed.

(** With a local state for every training node, a sample key at every
    training node, distinct training nodes and distinct evaluation nodes that
    all match some training node, [predict] returns; it draws one identifier
    per evaluation node, adds no aggregation record, keeps every train record
    and every other evaluation log, and records each evaluation as
    [evaluation_recorded] says. *)
Theorem predict_records_evaluations (self : Scaffold.t) (algo : Algo)
    (test_data_nodes : list TestDataNode.t)
    (train_data_nodes : list TrainDataNode.t) (round_idx : Z) (w : World)
    (ls : list LocalStateRef) :
  Scaffold._local_states self = Some ls ->
  (length train_data_nodes <= length ls)%nat ->
  Forall (fun n => TrainDataNode.data_sample_keys n ≠ []) train_data_nodes ->
  NoDup (TrainDataNode.oid <$> train_data_nodes) ->
  Forall (matches train_data_nodes) test_data_nodes ->
  NoDup (TestDataNode.oid <$> test_data_nodes) ->
  exists w',
    Scaffold.predict self algo test_data_nodes train_data_nodes round_idx w
    = (Ok tt, w') /\
    drawn w' = (drawn w + length test_data_nodes)%nat /\
    aggregate_tuples w' = aggregate_tuples w /\
    (forall oid record, record ∈ train_log w oid -> record ∈ train_log w' oid) /\
    (forall oid, oid ∉ TestDataNode.oid <$> test_data_nodes ->
                 test_log w' oid = test_log w oid) /\
    (forall t, t ∈ test_data_nodes ->
               evaluation_recorded self algo train_data_nodes round_idx t w w').
Proof.
  intros Hls Hlen Hkeys Hnodup Hall Htests.
  destruct (predict_all_matched self algo train_data_nodes round_idx ls
              test_data_nodes Hls Hlen Hkeys Hnodup Hall Htests w)
    as (w' & Hrun & Hd & _ & Ha & Htrain & Htest & Hrec).
  by exists w'.
Qed.

Lemma predict_records_evaluations_witness :
  exists w',
    Scaffold.predict sample_advanced_strategy sample_algo [sample_test_node1]
      [sample_node1; sample_node2] 1 sample_world = (Ok tt, w') /\
    drawn w' = (drawn sample_world + 1)%nat /\
    evaluation_recorded sample_advanced_strategy sample_algo
      [sample_node1; sample_node2] 1 sample_test_node1 sample_world w'.
Proof.
  destruct (predict_records_evaluations sample_advanced_strategy sample_algo
              [sample_test_node1] [sample_node1; sample_node2] 1 sample_world
              [mkLocalStateRef "a"; mkLocalStateRef "b"])
    as (w' & Hrun & Hd & _ & _ & _ & Hrec).
  - reflexivity.
  - simpl. lia.
  - by repeat constructor.
  - apply (bool_decide_unpack (NoDup (TrainDataNode.oid
      <$> [sample_node1; sample_node2]))). by vm_compute.
  - constructor; [| constructor]. unfold matches. by apply Exists_cons_hd.
  - apply (bool_decide_unpack (NoDup (TestDataNode.oid
      <$> [sample_test_node1]))). by vm_compute.
  - exists w'. split; [exact Hrun |]. split; [exact Hd |].
    apply Hrec. apply list_elem_of_here.
Defined.

(** ** Evaluation that stops on a missing state or sample key *)

Lemma filter_first_at {A} (P : A -> Prop) `{forall x, Decision (P x)}
    (l : list A) j x :
  l !! j = Some x -> P x ->
  (forall j' y, (j' < j)%nat -> l !! j' = Some y -> ~ P y) ->
  exists l', filter P l = x :: l'.
Proof.
  revert j. induction l as [| a l IH]; intros j Hj Hx Hbefore; [done |].
  rewrite filter_cons. destruct j as [| j]; simpl in Hj.
  - injection Hj as ->. rewrite decide_True by done. by eexists.
  - rewrite decide_False by (apply (Hbefore 0%nat a); [lia | done]).
    apply (IH j Hj Hx). intros j' y Hlt Hy.
    apply (Hbefore (S j') y); [lia | done].
Qed.

(** Let the first training node with the identity of the first evaluation
    node stand at position [j] of distinct training nodes.  When the strategy
    holds local states but none at position [j], or when that training node
    has no sample key, [predict] raises the out-of-range error at this first
    evaluation node and the store is left as it was. *)
Theorem predict_out_of_range (self : Scaffold.t) (algo : Algo)
    (test_node : TestDataNode.t) (rest : list TestDataNode.t)
    (train_data_nodes : list TrainDataNode.t) (round_idx : Z) (w : World)
    (ls : list LocalStateRef) (j : nat) (n : TrainDataNode.t) :
  Scaffold._local_states self = Some ls ->
  NoDup (TrainDataNode.oid <$> train_data_nodes) ->
  train_data_nodes !! j = Some n ->
  TrainDataNode.node_id n = TestDataNode.node_id test_node ->
  (forall j' n', (j' < j)%nat -> train_data_nodes !! j' = Some n' ->
                 TrainDataNode.node_id n' ≠ TestDataNode.node_id test_node) ->
  (length ls <= j)%nat \/ TrainDataNode.data_sample_keys n = [] ->
  Scaffold.predict self algo (test_node :: rest) train_data_nodes round_idx w
  = (Raise IndexError, w).
Proof.
  intros Hls Hnodup Hj Hid Hbefore Hcause. cbn [Scaffold.predict].
  unfold Scaffold.predict_node.
  destruct (filter_first_at
              (fun train_node => TrainDataNode.node_id train_node
                                 = TestDataNode.node_id test_node)
              train_data_nodes j n Hj Hid Hbefore) as (l' & ->).
  rewrite (index_position _ j n Hnodup Hj), Hls. simpl. unfold getitem at 1.
  destruct (ls !! j) as [lj |] eqn:Hlj; [| done]. simpl.
  destruct Hcause as [Hshort | Hnokey].
  - apply lookup_lt_Some in Hlj. lia.
  - by rewrite Hnokey.
Qed.

Lemma predict_out_of_range_witness :
  Scaffold.predict
    (Scaffold.mk 1%Qc (Some [mkLocalStateRef "a"]) (Some (mkSharedStateRef "c")))
    sample_algo [TestDataNode.mk 12 "org2"; sample_test_node1]
    [sample_node1; sample_node2] 1 sample_world
  = (Raise IndexError, sample_world).
Proof.
  apply (predict_out_of_range _ sample_algo (TestDataNode.mk 12 "org2")
           [sample_test_node1] [sample_node1; sample_node2] 1 sample_world
           [mkLocalStateRef "a"] 1%nat sample_node2).
  - reflexivity.
  - apply (bool_decide_unpack (NoDup (TrainDataNode.oid
      <$> [sample_node1; sample_node2]))). by vm_compute.
  - reflexivity.
  - reflexivity.
  - intros [| j'] n' Hlt Hn'; [| lia]. injection Hn' as <-. by vm_compute.
  - left. simpl. lia.
Defined.

(** ** A round followed by an evaluation *)

Lemma round_then_predict_spec self algo nodes aoid aid tests round_idx
    eval_idx w :
  (forall ls, Scaffold._local_states self = Some ls ->
              (length nodes <= length ls)%nat) ->
  NoDup (TrainDataNode.oid <$> nodes) ->
  Forall (fun n => TrainDataNode.data_sample_keys n ≠ []) nodes ->
  Forall (matches nodes) tests ->
  NoDup (TestDataNode.oid <$> tests) ->
  exists self' w1 w2,
    Scaffold.perform_round self algo nodes (AggregationNode.node aoid aid)
      round_idx w = (Ok tt, self', w1) /\
    Scaffold._aggregation_lr self' = Scaffold._aggregation_lr self /\
    Scaffold.predict self' algo tests nodes eval_idx w1 = (Ok tt, w2) /\
    drawn w2 = (S (drawn w + length nodes) + length tests)%nat /\
    aggregate_tuples w2 = aggregate_tuples w1 /\
    forall t, t ∈ tests ->
      exists evaluation j n record,
        test_log w2 (TestDataNode.oid t)
          = test_log w (TestDataNode.oid t) ++ [evaluation] /\
        test_round_idx evaluation = eval_idx /\
        nodes !! j = Some n /\
        TrainDataNode.node_id n = TestDataNode.node_id t /\
        round_record self algo n j (urandom w (drawn w + j)%nat)
          ∈ train_log w2 (TrainDataNode.oid n) /\
        record ∈ train_log w2 (TrainDataNode.oid n) /\
        composite_traintuple_id record = traintuple_id evaluation /\
        algo_key record = predict_key algo /\
        in_head_model_id record = Some (urandom w (drawn w + j)%nat) /\
        in_trunk_model_id record
          = Some (urandom w (drawn w + length nodes)%nat).
Proof.
  intros Hstate Hnodup Hkeys Hall Htests.
  destruct (perform_round_spec self algo nodes aoid aid round_idx w Hstate
              Hnodup)
    as (w1 & Hround & Hu1 & Hd1 & Htest1 & _ & Hlogs & _ & _).
  set (self' := Scaffold.mk _ _ _) in Hround.
  destruct (predict_all_matched self' algo nodes eval_idx
              ((fun j => mkLocalStateRef (urandom w (drawn w + j)%nat))
                 <$> seq 0 (length nodes)) tests)
    with (w := w1)
    as (w2 & Hrun & Hd2 & _ & Ha2 & Htrain & _ & Hrec); try done.
  { by rewrite length_fmap, length_seq. }
  exists self', w1, w2. split; [exact Hround |]. split; [done |].
  split; [exact Hrun |]. split; [lia |]. split; [exact Ha2 |].
  intros t Ht.
  destruct (Hrec t Ht) as (ev & j & n & record & sample & Hlog & Hidx & Hj
                           & Hid & _ & Hin & Hcid & Hhead & Htrunk & Hkey & _).
  exists ev, j, n, record. split.
  { rewrite Hlog. unfold test_log. by rewrite Htest1. }
  split; [done |]. split; [done |]. split; [done |]. split.
  { apply Htrain. rewrite (Hlogs j n Hj). apply elem_of_app. right.
    apply list_elem_of_here. }
  split; [done |]. split; [done |]. split; [done |]. split; [| done].
  rewrite Hhead. simpl. rewrite list_lookup_fmap, lookup_seq_lt; [done |].
  by apply lookup_lt_Some in Hj.
Qed.

(** A round run with the aggregation node of the specification over distinct
    training nodes, followed by [predict] over distinct evaluation nodes that
    all match a training node holding a sample key: both return, and the
    evaluation of every node consumes a train record that starts from the
    local state written by this very round for the matching training node and
    from the aggregate of this round. *)
Theorem round_then_predict (self : Scaffold.t) (algo : Algo)
    (nodes : list TrainDataNode.t) (aoid : nat) (aid : Key)
    (tests : list TestDataNode.t) (round_idx eval_idx : Z) (w : World) :
  (forall ls, Scaffold._local_states self = Some ls ->
              (length nodes <= length ls)%nat) ->
  NoDup (TrainDataNode.oid <$> nodes) ->
  Forall (fun n => TrainDataNode.data_sample_keys n ≠ []) nodes ->
  Forall (matches nodes) tests ->
  NoDup (TestDataNode.oid <$> tests) ->
  exists self' w1 w2,
    Scaffold.perform_round self algo nodes (AggregationNode.node aoid aid)
      round_idx w = (Ok tt, self', w1) /\
    Scaffold._aggregation_lr self' = Scaffold._aggregation_lr self /\
    Scaffold.predict self' algo tests nodes eval_idx w1 = (Ok tt, w2) /\
    drawn w2 = (S (drawn w + length nodes) + length tests)%nat /\
    aggregate_tuples w2 = aggregate_tuples w1 /\
    forall t, t ∈ tests ->
      exists evaluation j n record,
        test_log w2 (TestDataNode.oid t)
          = test_log w (TestDataNode.oid t) ++ [evaluation] /\
        test_round_idx evaluation = eval_idx /\
        nodes !! j = Some n /\
        TrainDataNode.node_id n = TestDataNode.node_id t /\
        round_record self algo n j (urandom w (drawn w + j)%nat)
          ∈ train_log w2 (TrainDataNode.oid n) /\
        record ∈ train_log w2 (TrainDataNode.oid n) /\
        composite_traintuple_id record = traintuple_id evaluation /\
        algo_key record = predict_key algo /\
        in_head_model_id record = Some (urandom w (drawn w + j)%nat) /\
        in_trunk_model_id record
          = Some (urandom w (drawn w + length nodes)%nat).
Proof. apply round_then_predict_spec. Qed.

Lemma round_then_predict_witness :
  exists self' w1 w2,
    Scaffold.perform_round sample_strategy sample_algo
      [sample_node1; sample_node2] sample_aggregator 0 sample_world
    = (Ok tt, self', w1) /\
    Scaffold.predict self' sample_algo [sample_test_node1]
      [sample_node1; sample_node2] 0 w1 = (Ok tt, w2) /\
    drawn w2 = (S (drawn sample_world + 2) + 1)%nat.
Proof.
  destruct (round_then_predict sample_strategy sample_algo
              [sample_node1; sample_node2] 9%nat "org0" [sample_test_node1]
              0 0 sample_world)
    as (self' & w1 & w2 & Hround & _ & Hrun & Hd & _).
  - intros ls Hls. discriminate Hls.
  - apply (bool_decide_unpack (NoDup (TrainDataNode.oid
      <$> [sample_node1; sample_node2]))). by vm_compute.
  - by repeat constructor.
  - constructor; [| constructor]. unfold matches. by apply Exists_cons_hd.
  - apply (bool_decide_unpack (NoDup (TestDataNode.oid
      <$> [sample_test_node1]))). by vm_compute.
  - by exists self', w1, w2.
Defined.

(** ** The life of a strategy *)

(** The constructor refuses a negative aggregation learning rate and nothing
    else.  The strategy it builds cannot evaluate: [predict] over any
    non-empty list of evaluation nodes fails and records nothing.  After one
    round over distinct training nodes that hold sample keys, the same call
    over distinct matching evaluation nodes returns and every evaluation log
    has one more record, for the round asked. *)
Theorem constructed_strategy_evaluates_after_a_round (aggregation_lr : Qc) :
  ((aggregation_lr < 0)%Qc ->
   Scaffold.__init__ aggregation_lr = Raise ValueError) /\
  (~ (aggregation_lr < 0)%Qc ->
   exists self,
     Scaffold.__init__ aggregation_lr = Ok self /\
     Scaffold._aggregation_lr self = aggregation_lr /\
     (forall algo test_node rest nodes eval_idx w,
        exists e,
          Scaffold.predict self algo (test_node :: rest) nodes eval_idx w
          = (Raise e, w)) /\
     (forall algo nodes aoid aid tests round_idx eval_idx w,
        NoDup (TrainDataNode.oid <$> nodes) ->
        Forall (fun n => TrainDataNode.data_sample_keys n ≠ []) nodes ->
        Forall (matches nodes) tests ->
        NoDup (TestDataNode.oid <$> tests) ->
        exists self' w1 w2,
          Scaffold.perform_round self algo nodes
            (AggregationNode.node aoid aid) round_idx w = (Ok tt, self', w1) /\
          Scaffold._aggregation_lr self' = aggregation_lr /\
          Scaffold.predict self' algo tests nodes eval_idx w1 = (Ok tt, w2) /\
          forall t, t ∈ tests ->
            exists evaluation,
              test_log w2 (TestDataNode.oid t)
                = test_log w (TestDataNode.oid t) ++ [evaluation] /\
              test_round_idx evaluation = eval_idx)).
Proof.
  unfold Scaffold.__init__. split.
  - intros Hneg. by rewrite bool_decide_eq_true_2.
  - intros Hpos. rewrite bool_decide_eq_false_2 by done.
    eexists. split; [reflexivity |]. split; [done |]. split.
    + intros algo test_node rest nodes eval_idx w. eexists.
      cbn [Scaffold.predict]. by rewrite predict_node_without_state.
    + intros algo nodes aoid aid tests round_idx eval_idx w Hnodup Hkeys Hall
             Htests.
      destruct (round_then_predict_spec
                  (Scaffold.mk aggregation_lr None None) algo nodes aoid aid
                  tests round_idx eval_idx w)
        as (self' & w1 & w2 & Hround & Hlr & Hrun & _ & _ & Hrec); try done.
      exists self', w1, w2. split; [done |]. split; [done |].
      split; [done |]. intros t Ht.
      destruct (Hrec t Ht) as (ev & j & n & record & Hlog & Hidx & _).
      by exists ev.
Qed.

Lemma constructed_strategy_evaluates_after_a_round_witness :
  Scaffold.__init__ (frac (-1) 2) = Raise ValueError /\
  exists self, Scaffold.__init__ (frac 1 2) = Ok self /\
               Scaffold._aggregation_lr self = frac 1 2.
Proof.
  split.
  - apply (proj1 (constructed_strategy_evaluates_after_a_round (frac (-1) 2))).
    by vm_compute.
  - destruct (proj2 (constructed_strategy_evaluates_after_a_round (frac 1 2)))
      as (self & Hinit & Hlr & _).
    + by vm_compute.
    + by exists self.
Defined.
